(** * DHRA: the document-summary pipeline of [app.py]

    A shallow embedding of the functions of [app.py] that fetch a shared
    document, extract its text, pick a language model, ask it for a summary
    and post-process the answer:

    - [download_pdf]                    (link resolution and download),
    - [extract_text_with_pdfminer]      (text extraction and its checks),
    - [CerebrasLLM] with [get_available_models], [get_response] and
      [extract_actual_response]         (catalog, completion, sanitizer),
    - [summarize_pdf_with_cerebras]     (guard, clipping, prompt, word budget).

    Python values are modelled as the code has them: a [str] is the list of
    its code points, an [int] is a [Z], a parsed JSON document is a [pyval].
    Calls that leave the process (the file system, the network, pdfminer) are
    the nodes of a program tree [prog]; running a tree against a handler
    yields the returned value, the trace of calls and the final world. *)

From Stdlib Require Import ZArith NArith List Bool Lia Ascii DecimalString PrimFloat.
From stdpp Require Import base list gmap strings.

Open Scope Z_scope.

(** ** Python strings *)

(** A Python [str] is a sequence of Unicode code points. *)
Abbreviation str := (list N).

(** The code points of a literal (all literals of [app.py] used here are
    ASCII). *)
Fixpoint pystr (s : string) : str :=
  match s with
  | EmptyString => []
  | String a s' => N_of_ascii a :: pystr s'
  end.
Arguments pystr : simpl never.

(** [len(s)] *)
Definition len {A} (l : list A) : Z := Z.of_nat (length l).

(** [str.isspace] on one code point: the characters that [str.strip()] and
    [str.split()] treat as whitespace. *)
Definition isspace (c : N) : bool :=
  ((9 <=? c) && (c <=? 13) || (28 <=? c) && (c <=? 32)
   || (c =? 133) || (c =? 160) || (c =? 5760)
   || (8192 <=? c) && (c <=? 8202)
   || (c =? 8232) || (c =? 8233) || (c =? 8239) || (c =? 8287)
   || (c =? 12288))%N.

(** [s.lstrip()], [s.rstrip()], [s.strip()] *)
Fixpoint lstrip (s : str) : str :=
  match s with
  | [] => []
  | c :: s' => if isspace c then lstrip s' else s
  end.

Definition rstrip (s : str) : str := rev (lstrip (rev s)).

Definition strip (s : str) : str := rstrip (lstrip s).

(** [s.startswith(sub)] *)
Fixpoint startswith (sub s : str) : bool :=
  match sub, s with
  | [], _ => true
  | _ :: _, [] => false
  | a :: sub', b :: s' => (a =? b)%N && startswith sub' s'
  end.

(** [sub in s] *)
Fixpoint py_in (sub s : str) : bool :=
  startswith sub s ||
  match s with
  | [] => false
  | _ :: s' => py_in sub s'
  end.

(** [s.find(sub)], counted from position [i] of the whole string: the lowest
    index where [sub] starts, [-1] when there is none. *)
Fixpoint find_from (i : Z) (sub s : str) : Z :=
  if startswith sub s then i
  else match s with
       | [] => -1
       | _ :: s' => find_from (i + 1) sub s'
       end.

Definition find (sub s : str) : Z := find_from 0 sub s.

(** [l[i:]] and [l[:j]], with Python's reading of negative indices. *)
Definition slice_from {A} (i : Z) (l : list A) : list A :=
  if 0 <=? i then drop (Z.to_nat i) l else drop (Z.to_nat (len l + i)) l.

Definition slice_to {A} (j : Z) (l : list A) : list A :=
  if 0 <=? j then take (Z.to_nat j) l else take (Z.to_nat (len l + j)) l.

(** [s.split()]: the maximal runs of non-whitespace characters, in order.
    [cur] is the run being read. *)
Fixpoint split_acc (cur s : str) : list str :=
  match s with
  | [] => match cur with [] => [] | _ => [cur] end
  | c :: s' =>
      if isspace c
      then match cur with
           | [] => split_acc [] s'
           | _ => cur :: split_acc [] s'
           end
      else split_acc (cur ++ [c]) s'
  end.

Definition split (s : str) : list str := split_acc [] s.

(** [sep.join(l)] *)
Fixpoint join (sep : str) (l : list str) : str :=
  match l with
  | [] => []
  | w :: rest =>
      match rest with
      | [] => w
      | _ => w ++ sep ++ join sep rest
      end
  end.

(** [s.split(sep)] for a one-character separator: the pieces between the
    occurrences of [sep]; an empty string gives one empty piece. *)
Fixpoint split_on_acc (sep : N) (cur s : str) : list str :=
  match s with
  | [] => [cur]
  | c :: s' =>
      if (c =? sep)%N then cur :: split_on_acc sep [] s'
      else split_on_acc sep (cur ++ [c]) s'
  end.

Definition split_on (sep : N) (s : str) : list str := split_on_acc sep [] s.

(** [s.split(sep, 1)]: cut at the first [sep], if there is one. *)
Fixpoint cut_acc (sep : N) (cur s : str) : option (str * str) :=
  match s with
  | [] => None
  | c :: s' =>
      if (c =? sep)%N then Some (cur, s') else cut_acc sep (cur ++ [c]) s'
  end.

Definition cut (sep : N) (s : str) : option (str * str) := cut_acc sep [] s.

(** [s.replace(old, new)] for a one-character [old]. *)
Definition replace (old : N) (new : str) (s : str) : str :=
  flat_map (fun c => if (c =? old)%N then new else [c]) s.

(** [str(n)] of an [int], as an f-string prints it. *)
Definition str_of_int (n : Z) : str :=
  pystr (NilZero.string_of_int (Z.to_int n)).

(** ** Exceptions and parsed JSON *)

(** The outcome of a call that may raise.  Every handler of the modelled code
    is [except Exception] and only logs the exception, so its identity is not
    kept. *)
Inductive result (A : Type) : Type :=
| Ok (a : A)
| Raised.
Arguments Ok {A} a.
Arguments Raised {A}.

#[global] Instance result_ret : MRet result := fun A a => Ok a.

#[global] Instance result_bind : MBind result := fun A B f r =>
  match r with
  | Ok a => f a
  | Raised => Raised
  end.

(** What [response.json()] returns: [None], [bool], [int], [float], [str],
    [list], and [dict] with string keys (first binding of a key wins). *)
#[warnings="-register-all"]
Inductive pyval : Type :=
| PNone
| PBool (b : bool)
| PInt (z : Z)
| PFloat (f : float)
| PStr (s : str)
| PList (l : list pyval)
| PDict (d : list (str * pyval)).

Definition str_eqb (a b : str) : bool := bool_decide (a = b).

Fixpoint assoc {V} (k : str) (d : list (str * V)) : option V :=
  match d with
  | [] => None
  | (k', v) :: d' => if str_eqb k k' then Some v else assoc k d'
  end.

(** [v.get(key, default)]: only a [dict] has [get]. *)
Definition py_get (key : str) (default : pyval) (v : pyval) : result pyval :=
  match v with
  | PDict d => Ok (match assoc key d with Some x => x | None => default end)
  | _ => Raised
  end.

(** [v[key]] for a string key: [KeyError] or [TypeError] otherwise. *)
Definition py_getitem (key : str) (v : pyval) : result pyval :=
  match v with
  | PDict d => match assoc key d with Some x => Ok x | None => Raised end
  | _ => Raised
  end.

(** [v[0]]: the first element of a list or string; a [dict] parsed from JSON
    has no integer key. *)
Definition py_first (v : pyval) : result pyval :=
  match v with
  | PList (x :: _) => Ok x
  | PStr (c :: _) => Ok (PStr [c])
  | _ => Raised
  end.

(** [for x in v]: the elements of a list, the characters of a string, the
    keys of a [dict]. *)
Definition py_iter (v : pyval) : result (list pyval) :=
  match v with
  | PList l => Ok l
  | PStr s => Ok (map (fun c => PStr [c]) s)
  | PDict d => Ok (map (fun kv => PStr (fst kv)) d)
  | _ => Raised
  end.

(** [len(v)] *)
Definition py_len (v : pyval) : result Z :=
  match v with
  | PStr s => Ok (len s)
  | PList l => Ok (len l)
  | PDict d => Ok (len d)
  | _ => Raised
  end.

(** Truth value of [v] in a condition. *)
Definition truthy (v : pyval) : bool :=
  match v with
  | PNone => false
  | PBool b => b
  | PInt z => negb (z =? 0)
  | PFloat f => negb (PrimFloat.eqb f 0%float)
  | PStr s => negb (len s =? 0)
  | PList l => negb (len l =? 0)
  | PDict d => negb (len d =? 0)
  end.

(** [f x] evaluated for each element, stopping at the first exception. *)
Fixpoint rmap {A B} (f : A -> result B) (l : list A) : result (list B) :=
  match l with
  | [] => Ok []
  | a :: l' => b ← f a; bs ← rmap f l'; Ok (b :: bs)
  end.

(** ** ResponseSanitizer: [CerebrasLLM.extract_actual_response] *)

Definition think_end : str := pystr "</think>".

(** ['</think>' in v]: substring test on a string, membership on a list, key
    test on a [dict]; a [TypeError] on anything else. *)
Definition marker_in (v : pyval) : result bool :=
  match v with
  | PStr s => Ok (py_in think_end s)
  | PList l => Ok (existsb (fun x => match x with
                                     | PStr s => str_eqb think_end s
                                     | _ => false
                                     end) l)
  | PDict d => Ok (match assoc think_end d with Some _ => true | None => false end)
  | _ => Raised
  end.

(** The body of the [try]: only a string has [find]. *)
Definition extract_actual_response_try (full_response : pyval) : result pyval :=
  b ← marker_in full_response;
  if b : bool then
    match full_response with
    | PStr s =>
        let think_end_pos := find think_end s in
        Ok (PStr (strip (slice_from (think_end_pos + 8) s)))
    | _ => Raised
    end
  else Ok full_response.

Definition extract_actual_response (full_response : pyval) : pyval :=
  match extract_actual_response_try full_response with
  | Ok actual_response => actual_response
  | Raised => full_response
  end.

(** ** WordBudgetTruncator: lines 218-220 of [summarize_pdf_with_cerebras] *)

Definition truncate_words (summary : str) (max_words : Z) : str :=
  let words := split summary in
  if len words >? max_words
  then join (pystr " ") (slice_to max_words words)
  else summary.

(** ** Calls that leave the process *)

Abbreviation bytes := (list Byte.byte).

(** One turn of the conversation. *)
Record message : Type := Message { role : str; content : pyval }.

(** The JSON body of the chat-completion request. *)
Record chat_request : Type := ChatRequest {
  model : pyval;
  messages : list message;
  temperature : float;
  max_tokens : Z;
  stream : bool
}.

(** What the code reads of a [requests] response: the status, the parsed
    body ([response.json()], which may raise), and for a streamed download
    the chunks that [iter_content] yields, with whether the stream breaks
    after them. *)
Record response : Type := Response {
  status_code : Z;
  json : result pyval;
  iter_content : list bytes;
  iter_raises : bool
}.

Inductive call : Type :=
| path_exists (p : str)                       (* os.path.exists *)
| path_getsize (p : str)                      (* os.path.getsize *)
| pdf_extract_text (p : str)                  (* pdfminer extract_text *)
| makedirs (p : str)                          (* os.makedirs(p, exist_ok=True) *)
| remove (p : str)                            (* os.remove *)
| open_wb (p : str)                           (* open(p, 'wb') *)
| file_write (p : str) (chunk : bytes)        (* file.write *)
| file_close (p : str)                        (* leaving the with block *)
| requests_get (url : str)                    (* requests.get *)
| requests_post (url : str) (body : chat_request).  (* requests.post *)

Definition answer (c : call) : Type :=
  match c with
  | path_exists _ => bool
  | path_getsize _ => result Z
  | pdf_extract_text _ => result str
  | makedirs _ | remove _ | open_wb _ | file_write _ _ | file_close _ =>
      result unit
  | requests_get _ | requests_post _ _ => result response
  end.

(** A program: it returns, or makes a call and goes on with the answer. *)
Inductive prog (R : Type) : Type :=
| Ret (r : R)
| Call (c : call) (k : answer c -> prog R).
Arguments Ret {R} r.
Arguments Call {R} c k.

Fixpoint bind {A B} (f : A -> prog B) (p : prog A) : prog B :=
  match p with
  | Ret a => f a
  | Call c k => Call c (fun x => bind f (k x))
  end.

#[global] Instance prog_ret : MRet prog := fun A a => Ret a.
#[global] Instance prog_bind : MBind prog := fun A B f p => bind f p.

Definition perform (c : call) : prog (answer c) := Call c Ret.

(** A call together with the answer it got. *)
Record io : Type := IO { io_call : call; io_answer : answer io_call }.

Section Run.
Context {W : Type}.
Variable handle : forall c : call, W -> answer c * W.

(** Run [p] from world [w]: the value returned, the calls made with their
    answers in order, and the world left behind. *)
Fixpoint run {R} (p : prog R) (w : W) : R * list io * W :=
  match p with
  | Ret r => (r, [], w)
  | Call c k =>
      let '(a, w1) := handle c w in
      let '(r, t, w2) := run (k a) w1 in
      (r, IO c a :: t, w2)
  end.
End Run.

(** The file store as the calls of a trace change it: a successful [remove]
    deletes the file, a successful [open(p, 'wb')] creates or empties it, a
    successful [write] appends to it; nothing else touches file contents. *)
Definition fs_step (fs : gmap str bytes) (e : io) : gmap str bytes :=
  match e with
  | IO c a =>
      match c return answer c -> gmap str bytes with
      | remove p => fun a => match a with Ok _ => delete p fs | Raised => fs end
      | open_wb p => fun a => match a with Ok _ => <[p := []]> fs | Raised => fs end
      | file_write p chunk => fun a =>
          match a with
          | Ok _ => match fs !! p with
                    | Some old => <[p := old ++ chunk]> fs
                    | None => fs
                    end
          | Raised => fs
          end
      | _ => fun _ => fs
      end a
  end.

Definition fs_after (t : list io) (fs : gmap str bytes) : gmap str bytes :=
  fold_left fs_step t fs.

(** The calls that create, write or delete in the file store. *)
Definition touches_files (e : io) : bool :=
  match io_call e with
  | makedirs _ | remove _ | open_wb _ | file_write _ _ | file_close _ => true
  | _ => false
  end.

(** ** TextExtractor: [extract_text_with_pdfminer] *)

(** The function returns the text or [None]; each [return None] is told apart
    by the message logged just before it. *)
Inductive extraction : Type :=
| FileMissing          (* "PDF file does not exist" *)
| FileEmpty            (* "PDF file is empty (0 bytes)" *)
| ExtractionRaised     (* "Error extracting text from PDF", the except branch *)
| TextTooShort         (* "PDF text extraction resulted in very short text" *)
| Extracted (text : str).

Definition extraction_value (e : extraction) : option str :=
  match e with
  | Extracted text => Some text
  | _ => None
  end.

Definition extract_text_with_pdfminer (pdf_path : str) : prog extraction :=
  ex ← perform (path_exists pdf_path);
  if negb ex then Ret FileMissing
  else
    sz ← perform (path_getsize pdf_path);
    match sz with
    | Raised => Ret ExtractionRaised
    | Ok file_size =>
        if file_size =? 0 then Ret FileEmpty
        else
          t ← perform (pdf_extract_text pdf_path);
          match t with
          | Raised => Ret ExtractionRaised
          | Ok text =>
              let text := strip (replace 0%N [] text) in
              if len text <? 10 then Ret TextTooShort
              else Ret (Extracted text)
          end
    end.

(** ** ModelCatalog and SummarizationSession: class [CerebrasLLM] *)

Definition CEREBRAS_BASE_URL : str := pystr "https://api.cerebras.ai/v1/".

(** The fields of a [CerebrasLLM] that its methods read or write.  The API
    key only fills the constant request headers, which no branch looks at;
    headers are not carried by the calls. *)
Record CerebrasLLM : Type := Llm {
  system_prompt : str;
  base_url : str;
  conversation_history : list message
}.

Definition system_turn (prompt : str) : message :=
  Message (pystr "system") (PStr prompt).
Definition user_turn (text : str) : message :=
  Message (pystr "user") (PStr text).
Definition assistant_turn (reply : pyval) : message :=
  Message (pystr "assistant") reply.

Definition reset_conversation (self : CerebrasLLM) : CerebrasLLM :=
  Llm (system_prompt self) (base_url self) [system_turn (system_prompt self)].

(** [CerebrasLLM(api_key, system_prompt)] *)
Definition new_CerebrasLLM (system_prompt : str) : CerebrasLLM :=
  reset_conversation (Llm system_prompt CEREBRAS_BASE_URL []).

Definition append_turn (self : CerebrasLLM) (m : message) : CerebrasLLM :=
  Llm (system_prompt self) (base_url self) (conversation_history self ++ [m]).

(** [[model["id"] for model in response.json().get("data", [])]], and [[]]
    when anything of it raises. *)
Definition model_ids (r : result response) : list pyval :=
  match (resp ← r;
         body ← json resp;
         data ← py_get (pystr "data") (PList []) body;
         entries ← py_iter data;
         rmap (py_getitem (pystr "id")) entries) with
  | Ok ids => ids
  | Raised => []
  end.

(** The catalog request: [GET {base_url}models]. *)
Definition models_call (self : CerebrasLLM) : call :=
  requests_get (base_url self ++ pystr "models").

Definition get_available_models (self : CerebrasLLM) : prog (list pyval) :=
  r ← perform (models_call self);
  Ret (model_ids r).

Definition preferred_models : list str :=
  [pystr "llama3.1-70b"; pystr "llama-3.3-70b"; pystr "llama3.1-8b"].

(** [preferred in models]: equality with a string holds for that string
    only. *)
Definition in_models (preferred : str) (models : list pyval) : bool :=
  existsb (fun m => match m with
                    | PStr s => str_eqb preferred s
                    | _ => false
                    end) models.

(** The [for ... break] loop: [None] when no preferred model is served. *)
Fixpoint first_preferred (prefs : list str) (models : list pyval) : option str :=
  match prefs with
  | [] => None
  | preferred :: rest =>
      if in_models preferred models then Some preferred
      else first_preferred rest models
  end.

(** Model selection on a catalog whose first entry is [m0]. *)
Definition select_model (m0 : pyval) (models : list pyval) : pyval :=
  let selected_model := first_preferred preferred_models models in
  match selected_model with
  | Some s => if truthy (PStr s) then PStr s else m0
  | None => m0
  end.

(** How [get_response] ended: its three [return None] and its success. *)
Inductive reply : Type :=
| NoModels               (* "No models available" *)
| ApiError               (* "API Error: ..." on a status other than 200 *)
| LlmError               (* "LLM Error: ...", the except branch *)
| Reply (actual_response : pyval).

Definition reply_value (r : reply) : option pyval :=
  match r with
  | Reply v => Some v
  | _ => None
  end.

(** [result.get("choices", [{}])[0].get("message", {}).get("content", "")] *)
Definition message_content (resp : response) : result pyval :=
  result ← json resp;
  choices ← py_get (pystr "choices") (PList [PDict []]) result;
  choice ← py_first choices;
  msg ← py_get (pystr "message") (PDict []) choice;
  py_get (pystr "content") (PStr []) msg.

#[warnings="-inexact-float"]
Definition summary_temperature : float := 0.3%float.

(** Lines 134-150: what [get_response] makes of the answer to the
    completion request. *)
Definition completion_reply (self : CerebrasLLM) (r : result response)
  : CerebrasLLM * reply :=
  match r with
  | Raised => (self, LlmError)
  | Ok response =>
      if status_code response =? 200 then
        match message_content response with
        | Raised => (self, LlmError)
        | Ok full_response =>
            let actual_response := extract_actual_response full_response in
            match py_len actual_response with
            | Raised => (self, LlmError)
            | Ok _ =>
                (append_turn self (assistant_turn actual_response),
                 Reply actual_response)
            end
        end
      else (self, ApiError)
  end.

(** The body of the completion request for the chosen model. *)
Definition completion_request (self : CerebrasLLM) (selected_model : pyval)
  : call :=
  requests_post (base_url self ++ pystr "chat/completions")
    (ChatRequest selected_model (conversation_history self)
       summary_temperature 1000 false).

Definition get_response (self : CerebrasLLM) (user_input : str)
  : prog (CerebrasLLM * reply) :=
  let self := append_turn self (user_turn user_input) in
  models ← get_available_models self;
  match models with
  | [] => Ret (self, NoModels)
  | m0 :: _ =>
      let selected_model := select_model m0 models in
      r ← perform (completion_request self selected_model);
      Ret (completion_reply self r)
  end.

(** ** [summarize_pdf_with_cerebras] *)

Definition summary_system_prompt : str := pystr
"You are a helpful AI assistant specialized in document summarization.
Your task is to read documents in any language and provide clear, concise summaries in English.
Focus on capturing the main points, key ideas, and important details.".

Definition prompt_head (max_words : Z) : str :=
  pystr "Please read the following document carefully and provide a comprehensive summary in English.

The summary should:
- Be approximately " ++ str_of_int max_words ++ pystr " words
- Capture all the main points and key ideas
- Be written in clear, professional English
- Include important details and context

DOCUMENT:
".

Definition prompt_tail : str := pystr "

Please provide the summary in English:".

(** The f-string of the user prompt around the (clipped) document text. *)
Definition user_prompt (max_words : Z) (pdf_text : str) : str :=
  prompt_head max_words ++ pdf_text ++ prompt_tail.

(** Lines 181-184: the text is cut to its first 8000 characters. *)
Definition clip_text (pdf_text : str) : str :=
  let max_chars := 8000 in
  if len pdf_text >? max_chars then slice_to max_chars pdf_text else pdf_text.

(** Line 176: [not pdf_text or len(pdf_text.strip()) < 50]. *)
Definition too_short (pdf_text : str) : bool :=
  negb (truthy (PStr pdf_text)) || (len (strip pdf_text) <? 50).

(** Lines 216-226: the value returned for the reply of [get_response];
    [summary.split()] raises, uncaught, when the reply is not a string. *)
Definition returned_summary (summary : reply) (max_words : Z)
  : result (option str) :=
  match reply_value summary with
  | Some v =>
      if truthy v then
        match v with
        | PStr summary => Ok (Some (truncate_words summary max_words))
        | _ => Raised
        end
      else Ok None
  | None => Ok None
  end.

(** The function returns the summary or [None]. *)
Definition summarize_pdf_with_cerebras (pdf_text : str) (max_words : Z)
  : prog (result (option str)) :=
  if too_short pdf_text then Ret (Ok None)
  else
    let pdf_text := clip_text pdf_text in
    let llm := new_CerebrasLLM summary_system_prompt in
    let user_prompt := user_prompt max_words pdf_text in
    '(llm, summary) ← get_response llm user_prompt;
    Ret (returned_summary summary max_words).

(** ** LinkResolver and DocumentFetcher: [download_pdf] *)

(** The six fields of [urllib.parse.urlparse]. *)
Record ParseResult : Type := {
  scheme : str;
  netloc : str;
  path : str;
  params : str;
  query : str;
  fragment : str
}.

(** [s.find(sub, start)] and [s.rfind(c)] for one character. *)
Definition find_at (start : Z) (sub s : str) : Z :=
  let r := find sub (slice_from start s) in
  if r <? 0 then -1 else r + Z.max 0 start.

Fixpoint rfind_from (i last : Z) (c : N) (s : str) : Z :=
  match s with
  | [] => last
  | d :: s' => rfind_from (i + 1) (if (d =? c)%N then i else last) c s'
  end.

Definition rfind (c : N) (s : str) : Z := rfind_from 0 (-1) c s.

Definition is_upper (c : N) : bool := ((65 <=? c) && (c <=? 90))%N.
Definition is_lower (c : N) : bool := ((97 <=? c) && (c <=? 122))%N.
Definition is_digit (c : N) : bool := ((48 <=? c) && (c <=? 57))%N.

(** [c in scheme_chars]: letters, digits, [+], [-], [.] *)
Definition scheme_char (c : N) : bool :=
  (is_lower c || is_upper c || is_digit c
   || (c =? 43) || (c =? 45) || (c =? 46))%N.

Definition lower (s : str) : str :=
  map (fun c => if is_upper c then (c + 32)%N else c) s.

Definition uses_params : list str :=
  map pystr [""; "ftp"; "hdl"; "prospero"; "http"; "imap"; "https"; "shttp";
             "rtsp"; "rtspu"; "sip"; "sips"; "mms"; "sftp"; "tel"]%string.

(** [_splitnetloc(url, start)]: the network location ends at the first of
    [/], [?], [#]. *)
Definition splitnetloc (url : str) (start : Z) : str * str :=
  let delim :=
    fold_left (fun delim c =>
                 let wdelim := find_at start [c] url in
                 if 0 <=? wdelim then Z.min delim wdelim else delim)
              [47; 63; 35]%N (len url) in
  (slice_from start (slice_to delim url), slice_from delim url).

(** [_splitparams(url)], called when [;] occurs in [url]. *)
Definition splitparams (url : str) : str * str :=
  if py_in [47%N] url then
    let i := find_at (rfind 47 url) [59%N] url in
    if i <? 0 then (url, [])
    else (slice_to i url, slice_from (i + 1) url)
  else
    let i := find [59%N] url in
    (slice_to i url, slice_from (i + 1) url).

(** [os.path.join(a, b)] of [posixpath]. *)
Definition path_join (a b : str) : str :=
  if startswith [47%N] b then b
  else if (len a =? 0) || startswith [47%N] (rev a) then a ++ b
  else a ++ [47%N] ++ b.

(** [dict[name].append(value)], creating the entry when it is missing. *)
Fixpoint dict_append (name value : str) (d : list (str * list str))
  : list (str * list str) :=
  match d with
  | [] => [(name, [value])]
  | (k, vs) :: d' =>
      if str_eqb name k then (k, vs ++ [value]) :: d'
      else (k, vs) :: dict_append name value d'
  end.

(** What [download_pdf] did; it returns [None] on every path, and the
    constructor records the message it printed. *)
Inductive download : Type :=
| InvalidLink                (* "Invalid Google Drive link." *)
| DownloadFailed             (* "Failed to download the file. ..." *)
| DownloadRaised             (* the except branch: "An error occurred: ..." *)
| Stored (target_path : str). (* "File downloaded and stored as: ..." *)

(** [not file_id] *)
Definition no_id (file_id : option str) : bool :=
  match file_id with
  | None => true
  | Some s => negb (truthy (PStr s))
  end.

(** The [for chunk in response.iter_content(...)] loop inside the [with]
    block: empty chunks are skipped, and a failing write or a broken stream
    ends the loop with the exception. *)
Fixpoint write_chunks (target_path : str) (chunks : list bytes)
    (raises : bool) : prog (result unit) :=
  match chunks with
  | [] => Ret (if raises then Raised else Ok tt)
  | chunk :: rest =>
      if len chunk =? 0 then write_chunks target_path rest raises
      else
        w ← perform (file_write target_path chunk);
        match w with
        | Ok _ => write_chunks target_path rest raises
        | Raised => Ret Raised
        end
  end.

(** [url.lstrip(_WHATWG_C0_CONTROL_OR_SPACE)]: leading characters up to the
    space are dropped. *)
Fixpoint lstrip_c0 (url : str) : str :=
  match url with
  | [] => []
  | c :: url' => if (c <=? 32)%N then lstrip_c0 url' else url
  end.

(** The two lines that [download_pdf] prints with a part chosen by the
    user: line 520 with the file name, line 529 with the target path. *)
Definition deleting_message (new_filename : str) : str :=
  pystr "File '" ++ new_filename
  ++ pystr "' already exists. Deleting the old file.".

Definition stored_message (target_path : str) : str :=
  pystr "File downloaded and stored as: " ++ target_path.

Section UrlLib.
(** Two pieces of [urllib.parse] are taken as given: [unquote], which
    decodes percent escapes (as UTF-8, with replacement), and the checks
    that [urlsplit] runs on the network location (balanced IPv6 brackets,
    [_check_bracketed_netloc], [_checknetloc]), any of which raises
    [ValueError].  So is the standard output: [print] raises
    [UnicodeEncodeError] on a text that the encoding of [sys.stdout]
    cannot represent, and [stdout_encodes] tells which texts it can. *)
Variable unquote : str -> str.
Variable netloc_ok : str -> bool.
Variable stdout_encodes : str -> bool.

(** [urlsplit(url)] followed by the parameter split of [urlparse(url)]. *)
Definition urlparse (url : str) : result ParseResult :=
  let url := lstrip_c0 url in
  let url := List.filter (fun c => negb ((c =? 9) || (c =? 13) || (c =? 10))%N) url in
  let i := find [58%N] url in
  let '(scheme, url) :=
    if (0 <? i)
       && match url with
          | c :: _ => (c <? 128)%N && (is_lower c || is_upper c)
          | [] => false
          end
       && forallb scheme_char (slice_to i url)
    then (lower (slice_to i url), slice_from (i + 1) url)
    else ([], url) in
  located ← (if str_eqb (slice_to 2 url) (pystr "//")
             then let '(netloc, rest) := splitnetloc url 2 in
                  if netloc_ok netloc then Ok (netloc, rest) else Raised
             else Ok ([], url));
  let '(netloc, url) := located in
  let '(url, fragment) :=
    match cut 35 url with Some (a, b) => (a, b) | None => (url, []) end in
  let '(url, query) :=
    match cut 63 url with Some (a, b) => (a, b) | None => (url, []) end in
  let '(url, params) :=
    if existsb (str_eqb scheme) uses_params && py_in [59%N] url
    then splitparams url else (url, []) in
  Ok (Build_ParseResult scheme netloc url params query fragment).

(** [parse_qsl(qs)]: the fields between [&], each cut at its first [=];
    a field without [=] or with a blank value is dropped
    ([keep_blank_values=False]); [+] reads as a space and both sides are
    unquoted. *)
Definition parse_field (name_value : str) : list (str * str) :=
  if len name_value =? 0 then []
  else match cut 61 name_value with
       | None => []
       | Some (n, v) =>
           if len v =? 0 then []
           else [(unquote (replace 43 [32%N] n),
                  unquote (replace 43 [32%N] v))]
       end.

Definition parse_qsl (qs : str) : list (str * str) :=
  let query_args := if len qs =? 0 then [] else split_on 38 qs in
  flat_map parse_field query_args.

(** [parse_qs(qs)]: the values of each name, in order of appearance. *)
Definition parse_qs (qs : str) : list (str * list str) :=
  fold_left (fun d nv => dict_append (fst nv) (snd nv) d) (parse_qsl qs) [].

(** Lines 491-495: the file id of a share link, [None] when the link has
    neither form; the exceptions are those the [try] of [download_pdf]
    catches. *)
Definition extract_file_id (drive_link : str) : result (option str) :=
  parsed_url ← urlparse drive_link;
  file_id ← match assoc (pystr "id") (parse_qs (query parsed_url)) with
            | None => Ok None
            | Some (v :: _) => Ok (Some v)
            | Some [] => Raised
            end;
  if no_id file_id then
    if py_in (pystr "/d/") (path parsed_url)
    then match split_on 47 (path parsed_url) !! 3%nat with
         | Some segment => Ok (Some segment)
         | None => Raised
         end
    else Ok None
  else Ok file_id.

Definition export_url (file_id : str) : str :=
  pystr "https://drive.google.com/uc?export=download&id=" ++ file_id.

(** Lines 510-529, after a 200 response.  The [print] of line 520 stands
    between [os.path.exists] and [os.remove]: when it raises, the old file
    is neither removed nor overwritten.  The [print] of line 529 comes after
    the file is closed. *)
Definition store_pdf (resp : response) (email title : str) : prog download :=
  let parent_folder := pystr "researchers/" ++ email in
  m ← perform (makedirs parent_folder);
  match m with
  | Raised => Ret DownloadRaised
  | Ok _ =>
      let new_filename := title ++ pystr ".pdf" in
      let target_path := path_join parent_folder new_filename in
      ex ← perform (path_exists target_path);
      rm ← (if ex : bool
            then if stdout_encodes (deleting_message new_filename)
                 then perform (remove target_path)
                 else Ret Raised
            else Ret (Ok tt));
      match rm with
      | Raised => Ret DownloadRaised
      | Ok _ =>
          o ← perform (open_wb target_path);
          match o with
          | Raised => Ret DownloadRaised
          | Ok _ =>
              w ← write_chunks target_path (iter_content resp) (iter_raises resp);
              c ← perform (file_close target_path);
              match w, c with
              | Ok _, Ok _ =>
                  if stdout_encodes (stored_message target_path)
                  then Ret (Stored target_path)
                  else Ret DownloadRaised
              | _, _ => Ret DownloadRaised
              end
          end
      end
  end.

Definition download_pdf (drive_link email title : str) : prog download :=
  match extract_file_id drive_link with
  | Raised => Ret DownloadRaised
  | Ok file_id =>
      match file_id with
      | Some id =>
          if no_id file_id then Ret InvalidLink
          else
            let download_url := export_url id in
            r ← perform (requests_get download_url);
            match r with
            | Raised => Ret DownloadRaised
            | Ok response =>
                if negb (status_code response =? 200) then Ret DownloadFailed
                else store_pdf response email title
            end
      | None => Ret InvalidLink
      end
  end.
End UrlLib.

(** *** Instances of the two library pieces, for running examples *)

Definition hex_digit (c : N) : option N :=
  if is_digit c then Some (c - 48)%N
  else if ((97 <=? c) && (c <=? 102))%N then Some (c - 87)%N
  else if ((65 <=? c) && (c <=? 70))%N then Some (c - 55)%N
  else None.

(** Where the decoder stands: outside an escape, after [%], or after [%]
    and one hexadecimal digit [h] of value [a]. *)
Inductive escape : Type :=
| Plain
| Percent
| PercentHex (h a : N).

(** Percent decoding, escape by escape; an escape that is not [%] and two
    hexadecimal digits is kept as written. *)
Fixpoint unquote_from (st : escape) (s : str) : str :=
  match s with
  | [] =>
      match st with
      | Plain => []
      | Percent => [37%N]
      | PercentHex h _ => [37%N; h]
      end
  | c :: s' =>
      let restart := if (c =? 37)%N then unquote_from Percent s'
                     else c :: unquote_from Plain s' in
      match st with
      | Plain => restart
      | Percent =>
          match hex_digit c with
          | Some a => unquote_from (PercentHex c a) s'
          | None => 37%N :: restart
          end
      | PercentHex h a =>
          match hex_digit c with
          | Some b => (16 * a + b)%N :: unquote_from Plain s'
          | None => 37%N :: h :: restart
          end
      end
  end.

(** An instance of [unquote] that agrees with [urllib.parse.unquote] on
    every string whose escapes are all below [%80], where a decoded byte is
    a character: a string without [%] is returned as it is. *)
Definition unquote_ascii (s : str) : str :=
  if py_in [37%N] s then unquote_from Plain s else s.

(** An instance of the network-location checks that accepts the ASCII
    locations without brackets, which pass all of them. *)
Definition netloc_plain (n : str) : bool :=
  forallb (fun c => (c <? 128) && negb (c =? 91) && negb (c =? 93))%N n.

(** Two standard outputs: one encoded as UTF-8, which takes every text
    without a surrogate code point, and one encoded as ASCII. *)
Definition utf8_stdout (s : str) : bool :=
  forallb (fun c => negb ((55296 <=? c) && (c <=? 57343)))%N s.

Definition ascii_stdout (s : str) : bool :=
  forallb (fun c => c <? 128)%N s.

(** *** A scripted environment, for running examples *)

(** Fixed answers for the calls that read, and one answer for every call
    that writes. *)
Record env : Type := Env {
  env_exists : str -> bool;
  env_getsize : str -> result Z;
  env_extract : str -> result str;
  env_get : str -> result response;
  env_post : str -> chat_request -> result response;
  env_write : result unit
}.

Definition env_handle (e : env) (c : call) (w : unit) : answer c * unit :=
  (match c return answer c with
   | path_exists p => env_exists e p
   | path_getsize p => env_getsize e p
   | pdf_extract_text p => env_extract e p
   | makedirs _ | remove _ | open_wb _ | file_write _ _ | file_close _ =>
       env_write e
   | requests_get url => env_get e url
   | requests_post url body => env_post e url body
   end, w).

(** *** Vocabulary of the statements *)

(** A word: a non-empty string without whitespace. *)
Definition word (w : str) : Prop :=
  w <> [] /\ Forall (fun c => isspace c = false) w.

(** *** Example answers of the inference endpoint *)

(** [{"data": [{"id": ...}, ...]}] with status 200. *)
Definition catalog_response (ids : list str) : response :=
  Response 200
    (Ok (PDict [(pystr "data",
                 PList (map (fun i => PDict [(pystr "id", PStr i)]) ids))]))
    [] false.

(** [{"choices": [{"message": {"content": ...}}]}] with the given status. *)
Definition completion_response (status : Z) (text : str) : response :=
  Response status
    (Ok (PDict [(pystr "choices",
                 PList [PDict [(pystr "message",
                                PDict [(pystr "content", PStr text)])]])]))
    [] false.

(** An environment that answers the catalog and the completion request. *)
Definition llm_env (catalog completion : result response) : env :=
  Env (fun _ => false) (fun _ => Raised) (fun _ => Raised)
      (fun _ => catalog) (fun _ _ => completion) (Ok tt).

(** An environment with a stored file of 1024 bytes whose extracted text is
    [raw]. *)
Definition pdf_env (raw : str) : env :=
  Env (fun _ => true) (fun _ => Ok 1024) (fun _ => Ok raw)
      (fun _ => Raised) (fun _ _ => Raised) (Ok tt).

(** An environment for a download: the answer to the request, whether the
    target file already exists, and the answer of every write. *)
Definition download_env (reply : result response) (stored : bool) : env :=
  Env (fun _ => stored) (fun _ => Raised) (fun _ => Raised)
      (fun _ => reply) (fun _ _ => Raised) (Ok tt).

(** The values of the fields called [name] among the pairs of [parse_qsl]. *)
Definition values_of (name : str) (pairs : list (str * str)) : list str :=
  map snd (List.filter (fun nv => str_eqb name (fst nv)) pairs).

(** A file store that holds [researchers/a@b.c/paper.pdf]. *)
Definition stored_paper : gmap str bytes :=
  {[ pystr "researchers/a@b.c/paper.pdf"
     := [Byte.x25; Byte.x50; Byte.x44; Byte.x46] ]}.

(** An endpoint that serves [llama3.1-8b] and answers every completion
    request with [a summary]. *)
Definition serving_env : env :=
  llm_env (Ok (catalog_response [pystr "llama3.1-8b"]))
          (Ok (completion_response 200 (pystr "a summary"))).

(** *** Proof steps *)

(** One step of a run: the handler's answer, as hypothesis [H] gives it. *)
Ltac answer_with H := cbn; rewrite H; cbn.

(** ** The callers: [create_user_folder] and the route [get_ai_summary] *)

(** [create_user_folder(email)]: the folder is made, or the exception is
    printed; the function returns [None] either way. *)
Definition create_user_folder (email : str) : prog unit :=
  let parent_folder := pystr "researchers" in
  let new_folder_path := path_join parent_folder email in
  m ← perform (makedirs new_folder_path);
  Ret tt.

(** The answers of [get_ai_summary] once the post is read, with their HTTP
    status. *)
Inductive summary_response : Type :=
| PdfNotFound                          (* 404, "PDF file not found." *)
| TextNotExtracted                     (* 500, "Failed to extract text from PDF. ..." *)
| SummaryGenerated (summary title : str) (* 200, success *)
| SummaryNotGenerated                  (* 500, "Failed to generate AI summary." *)
| SummaryRaised.                       (* 500, the except branch *)

Definition response_status (r : summary_response) : Z :=
  match r with
  | PdfNotFound => 404
  | SummaryGenerated _ _ => 200
  | _ => 500
  end.

(** Lines 871-897 of [get_ai_summary], for the post [(email, title)] that
    the query returned: the stored file is looked up, its text extracted and
    summarized in at most 150 words. *)
Definition get_ai_summary_of_post (email title : str) : prog summary_response :=
  let pdf_path :=
    path_join (path_join (pystr "researchers") email) (title ++ pystr ".pdf") in
  ex ← perform (path_exists pdf_path);
  if negb ex then Ret PdfNotFound
  else
    pdf_text ← extract_text_with_pdfminer pdf_path;
    match extraction_value pdf_text with
    | None => Ret TextNotExtracted
    | Some pdf_text =>
        if negb (truthy (PStr pdf_text)) then Ret TextNotExtracted
        else
          s ← summarize_pdf_with_cerebras pdf_text 150;
          match s with
          | Raised => Ret SummaryRaised
          | Ok None => Ret SummaryNotGenerated
          | Ok (Some summary) =>
              if truthy (PStr summary) then Ret (SummaryGenerated summary title)
              else Ret SummaryNotGenerated
          end
    end.

(** The calls of a trace, without their answers. *)
Definition calls (t : list io) : list call := map io_call t.

(** The calls to the network. *)
Definition is_request (c : call) : bool :=
  match c with
  | requests_get _ | requests_post _ _ => true
  | _ => false
  end.


(** An environment in which every file-system call succeeds. *)
Definition writes_succeed {W : Type}
    (handle : forall c : call, W -> answer c * W) : Prop :=
  forall (w : W),
    (forall p, fst (handle (makedirs p) w) = Ok tt) /\
    (forall p, fst (handle (remove p) w) = Ok tt) /\
    (forall p, fst (handle (open_wb p) w) = Ok tt) /\
    (forall p chunk, fst (handle (file_write p chunk) w) = Ok tt) /\
    (forall p, fst (handle (file_close p) w) = Ok tt).

(** The folder and the path that [download_pdf] computes for a post. *)
Definition parent_folder_of (email : str) : str :=
  pystr "researchers/" ++ email.

Definition target_path_of (email title : str) : str :=
  path_join (parent_folder_of email) (title ++ pystr ".pdf").

(** The path that [get_ai_summary] computes for a post. *)
Definition pdf_path_of (email title : str) : str :=
  path_join (path_join (pystr "researchers") email) (title ++ pystr ".pdf").

(** The path of a file that a step opened for writing, and of one that a
    step closed. *)
Definition opened_file (e : io) : option str :=
  match e with
  | IO c a =>
      match c return answer c -> option str with
      | open_wb p => fun a => match a with Ok _ => Some p | Raised => None end
      | _ => fun _ => None
      end a
  end.

Definition closed_file (e : io) : option str :=
  match io_call e with
  | file_close p => Some p
  | _ => None
  end.

(** What a call of a download may be: the request, the making of the
    owner's folder, or an operation on the target path. *)
Definition download_call (email title : str) (c : call) : Prop :=
  match c with
  | requests_get _ => True
  | makedirs p => p = parent_folder_of email
  | path_exists p | remove p | open_wb p | file_write p _ | file_close p =>
      p = target_path_of email title
  | _ => False
  end.


(** An environment with a stored file whose extracted text is [raw], and an
    endpoint that serves [llama3.1-8b] and answers every completion request
    with [a summary]. *)
Definition library_env (raw : str) : env :=
  Env (fun _ => true) (fun _ => Ok 1024) (fun _ => Ok raw)
      (fun _ => Ok (catalog_response [pystr "llama3.1-8b"]))
      (fun _ _ => Ok (completion_response 200 (pystr "a summary")))
      (Ok tt).

(** A document text of more than 50 characters. *)
Definition sample_text : str :=
  pystr "This paper studies how archives of letters can be read at scale.".

(** A title with letters outside ASCII: [résumé]. *)
Definition accented_title : str :=
  pystr "r" ++ [233%N] ++ pystr "sum" ++ [233%N].

(** * Properties *)

(** ** Strings *)

Lemma len_nil {A} : len (@nil A) = 0.
Proof. reflexivity. Qed.

Lemma len_cons {A} (x : A) l : len (x :: l) = len l + 1.
Proof. unfold len. simpl. lia. Qed.

Lemma len_app {A} (l1 l2 : list A) : len (l1 ++ l2) = len l1 + len l2.
Proof. unfold len. rewrite length_app. lia. Qed.

Lemma len_nonneg {A} (l : list A) : 0 <= len l.
Proof. unfold len. lia. Qed.

Lemma str_eqb_eq (a b : str) : str_eqb a b = true <-> a = b.
Proof. unfold str_eqb. apply bool_decide_eq_true. Qed.

Lemma str_eqb_refl (a : str) : str_eqb a a = true.
Proof. by apply str_eqb_eq. Qed.

Lemma startswith_app (sub t : str) : startswith sub (sub ++ t) = true.
Proof.
  induction sub as [|a sub IH]; simpl; [done|].
  by rewrite N.eqb_refl, IH.
Qed.

Lemma startswith_inv (sub s : str) :
  startswith sub s = true -> exists t, s = sub ++ t.
Proof.
  revert s. induction sub as [|a sub IH]; intros s H.
  - by exists s.
  - destruct s as [|b s]; simpl in H; [done|].
    apply andb_true_iff in H as [Hab Hs].
    apply N.eqb_eq in Hab as ->.
    destruct (IH _ Hs) as [t ->]. by exists t.
Qed.

Lemma py_in_startswith (sub s : str) :
  startswith sub s = true -> py_in sub s = true.
Proof. intros H. destruct s; simpl; by rewrite H. Qed.

Lemma find_from_startswith (i : Z) (sub s : str) :
  startswith sub s = true -> find_from i sub s = i.
Proof. intros H. destruct s; simpl; by rewrite H. Qed.

(** [sub in s] holds exactly when [s] has an occurrence of [sub]. *)
Lemma py_in_occurs (sub s : str) :
  py_in sub s = true <-> exists a b, s = a ++ sub ++ b.
Proof.
  split.
  - induction s as [|c s IH]; simpl; intros H.
    + rewrite orb_false_r in H. apply startswith_inv in H as [t ->].
      by exists [], t.
    + apply orb_true_iff in H as [H|H].
      * apply startswith_inv in H as [t ->]. by exists [], t.
      * destruct (IH H) as (a & b & ->). by exists (c :: a), b.
  - intros (a & b & ->). induction a as [|c a IH]; simpl.
    + apply py_in_startswith, startswith_app.
    + by rewrite IH, orb_true_r.
Qed.

(** [find] returns the position of the first occurrence. *)
Lemma find_from_first (i : Z) (sub a b : str) :
  (forall a' b', a ++ sub ++ b = a' ++ sub ++ b' -> (length a <= length a')%nat) ->
  find_from i sub (a ++ sub ++ b) = i + len a.
Proof.
  revert i. induction a as [|c a IH]; intros i Hmin.
  - simpl app. rewrite find_from_startswith by apply startswith_app.
    rewrite len_nil. lia.
  - simpl. destruct (startswith sub (c :: a ++ sub ++ b)) eqn:Hs.
    + apply startswith_inv in Hs as [t Ht].
      specialize (Hmin [] t Ht). simpl in Hmin. lia.
    + rewrite IH, len_cons; [lia|].
      intros a' b' E. specialize (Hmin (c :: a') b'). simpl in Hmin.
      rewrite E in Hmin. specialize (Hmin eq_refl). lia.
Qed.

Lemma find_from_absent (i : Z) (sub s : str) :
  py_in sub s = false -> find_from i sub s = -1.
Proof.
  revert i. induction s as [|c s IH]; simpl; intros i H.
  - rewrite orb_false_r in H. by rewrite H.
  - apply orb_false_iff in H as [-> H]. by apply IH.
Qed.

(** Among the occurrences of [sub] in [s] there is a first one. *)
Lemma first_occurrence (sub s : str) :
  py_in sub s = true ->
  exists a b, s = a ++ sub ++ b /\
    forall a' b', s = a' ++ sub ++ b' -> (length a <= length a')%nat.
Proof.
  induction s as [|c s IH]; simpl; intros H.
  - rewrite orb_false_r in H. apply startswith_inv in H as [t ->].
    exists [], t. split; [done|]. intros; simpl; lia.
  - destruct (startswith sub (c :: s)) eqn:Hs.
    + apply startswith_inv in Hs as [t ->].
      exists [], t. split; [done|]. intros; simpl; lia.
    + simpl in H. destruct (IH H) as (a & b & -> & Hmin).
      exists (c :: a), b. split; [done|].
      intros [|c' a'] b' E.
      * simpl in E. rewrite E, startswith_app in Hs. done.
      * simpl in E. injection E as -> E. simpl.
        specialize (Hmin _ _ E). lia.
Qed.

Lemma slice_from_app {A} (a b : list A) : slice_from (len a) (a ++ b) = b.
Proof.
  unfold slice_from. pose proof (len_nonneg a) as H.
  apply Z.leb_le in H as ->. unfold len. rewrite Nat2Z.id.
  by rewrite drop_app_length.
Qed.

Lemma slice_to_nonneg {A} (j : Z) (l : list A) :
  0 <= j -> slice_to j l = take (Z.to_nat j) l.
Proof. intros H. unfold slice_to. by apply Z.leb_le in H as ->. Qed.

(** [lstrip] and [rstrip] remove exactly a run of whitespace, and what is
    left neither starts nor ends with whitespace. *)
Lemma lstrip_split (s : str) :
  exists l, s = l ++ lstrip s /\ forallb isspace l = true.
Proof.
  induction s as [|c s (l & E & Hl)]; [by exists []|].
  simpl. destruct (isspace c) eqn:Hc.
  - exists (c :: l). simpl. rewrite Hc, Hl. by rewrite E at 1.
  - by exists [].
Qed.

Lemma lstrip_head (s : str) c t : lstrip s = c :: t -> isspace c = false.
Proof.
  induction s as [|d s IH]; simpl; [done|].
  destruct (isspace d) eqn:Hd; [done|]. by intros [= <- _].
Qed.

Lemma strip_split (s : str) :
  exists l r, s = l ++ strip s ++ r /\
    forallb isspace l = true /\ forallb isspace r = true.
Proof.
  destruct (lstrip_split s) as (l & E & Hl).
  destruct (lstrip_split (rev (lstrip s))) as (r & E' & Hr).
  exists l, (rev r). unfold strip, rstrip. repeat split; [|done|].
  - rewrite <- rev_app_distr, <- E', rev_involutive. done.
  - rewrite forallb_forall in *. intros x Hx. apply Hr. by apply in_rev.
Qed.

Lemma strip_ends (s : str) :
  (forall c t, strip s = c :: t -> isspace c = false) /\
  (forall c t, strip s = t ++ [c] -> isspace c = false).
Proof.
  split; intros c t E.
  - destruct (lstrip_split (rev (lstrip s))) as (l & El & _).
    apply (f_equal (@rev N)) in El.
    rewrite rev_involutive, rev_app_distr in El.
    change (rev (lstrip (rev (lstrip s)))) with (strip s) in El.
    rewrite E in El. simpl in El. by apply lstrip_head in El.
  - unfold strip, rstrip in E.
    assert (E2 : lstrip (rev (lstrip s)) = c :: rev t).
    { rewrite <- (rev_involutive (lstrip (rev (lstrip s)))), E, rev_app_distr. done. }
    by apply lstrip_head in E2.
Qed.

(** ** ResponseSanitizer *)

Lemma think_end_len : len think_end = 8.
Proof. reflexivity. Qed.

Lemma sanitize_at_first_marker (a b : str) :
  (forall a' b', a ++ think_end ++ b = a' ++ think_end ++ b' ->
                 (length a <= length a')%nat) ->
  extract_actual_response (PStr (a ++ think_end ++ b)) = PStr (strip b).
Proof.
  intros Hmin.
  unfold extract_actual_response, extract_actual_response_try.
  cbn [mbind result_bind marker_in].
  assert (Hin : py_in think_end (a ++ think_end ++ b) = true)
    by (apply py_in_occurs; eauto).
  rewrite Hin. unfold find. rewrite find_from_first by done.
  replace (0 + len a + 8) with (len (a ++ think_end))
    by (rewrite len_app, think_end_len; lia).
  by rewrite app_assoc, slice_from_app.
Qed.

Lemma sanitize_without_marker (s : str) :
  py_in think_end s = false -> extract_actual_response (PStr s) = PStr s.
Proof.
  intros H. unfold extract_actual_response, extract_actual_response_try.
  cbn [mbind result_bind marker_in]. by rewrite H.
Qed.

Lemma sanitize_not_a_string (v : pyval) :
  (forall s, v <> PStr s) -> extract_actual_response v = v.
Proof.
  intros Hv. unfold extract_actual_response, extract_actual_response_try.
  destruct v; try done; cbn [mbind result_bind marker_in];
    repeat case_match; congruence.
Qed.

(** C8. On a reply that contains the marker [</think>], the sanitizer returns
    what follows the first occurrence of the marker, stripped of leading and
    trailing whitespace; on a reply without the marker it returns the reply
    as it is.  It is a total function: it returns on every reply, and a reply
    that is not a string comes back unchanged. *)
Theorem extract_actual_response_spec :
  (forall s, py_in think_end s = true ->
     exists a b, s = a ++ think_end ++ b /\
       (forall a' b', s = a' ++ think_end ++ b' -> (length a <= length a')%nat) /\
       extract_actual_response (PStr s) = PStr (strip b)) /\
  (forall s, (forall a b, s <> a ++ think_end ++ b) ->
     extract_actual_response (PStr s) = PStr s) /\
  (forall v, (forall s, v <> PStr s) -> extract_actual_response v = v) /\
  (forall b, exists l r, b = l ++ strip b ++ r /\
     forallb isspace l = true /\ forallb isspace r = true /\
     (forall c t, strip b = c :: t -> isspace c = false) /\
     (forall c t, strip b = t ++ [c] -> isspace c = false)) /\
  extract_actual_response (PStr (pystr "some reasoning</think> final answer"))
    = PStr (pystr "final answer") /\
  extract_actual_response (PStr (pystr "plain answer"))
    = PStr (pystr "plain answer").
Proof.
  repeat apply conj.
  - intros s Hin. destruct (first_occurrence _ _ Hin) as (a & b & -> & Hmin).
    exists a, b. repeat split; [done|]. by apply sanitize_at_first_marker.
  - intros s Hno. apply sanitize_without_marker.
    destruct (py_in think_end s) eqn:E; [|done].
    apply py_in_occurs in E as (a & b & ->). by destruct (Hno a b).
  - apply sanitize_not_a_string.
  - intros b. destruct (strip_split b) as (l & r & E & Hl & Hr).
    exists l, r. repeat split; try done; apply strip_ends.
  - vm_compute. reflexivity.
  - vm_compute. reflexivity.
Qed.

(** ** WordBudgetTruncator *)

Lemma split_acc_app (cur w rest : str) :
  Forall (fun c => isspace c = false) w ->
  split_acc cur (w ++ rest) = split_acc (cur ++ w) rest.
Proof.
  intros Hw. revert cur. induction Hw as [|c w Hc _ IH]; intros cur.
  - by rewrite app_nil_r.
  - simpl. rewrite Hc, IH. by rewrite <- app_assoc.
Qed.

(** Every token of [s.split()] is a word. *)
Lemma split_acc_words (cur s : str) :
  Forall (fun c => isspace c = false) cur -> Forall word (split_acc cur s).
Proof.
  revert cur. induction s as [|c s IH]; intros cur Hcur; simpl.
  - destruct cur; [constructor|]. constructor; [by split|constructor].
  - destruct (isspace c) eqn:Hc.
    + destruct cur; [by apply IH|].
      constructor; [by split|]. apply IH. constructor.
    + apply IH. apply Forall_app. split; [done|]. by apply Forall_singleton.
Qed.

Lemma split_words (s : str) : Forall word (split s).
Proof. apply split_acc_words. constructor. Qed.

Lemma join_cons (sep w w' : str) (ws : list str) :
  join sep (w :: w' :: ws) = w ++ sep ++ join sep (w' :: ws).
Proof. reflexivity. Qed.

(** Splitting what [' '.join] made of words gives the words back. *)
Lemma split_join (ws : list str) :
  Forall word ws -> split (join (pystr " ") ws) = ws.
Proof.
  unfold split. change (pystr " ") with [32%N].
  induction 1 as [|w ws [Hne Hw] Hws IH]; [done|].
  destruct ws as [|w' ws'].
  - cbn [join]. rewrite <- (app_nil_r w) at 1. rewrite split_acc_app by done.
    cbn [app split_acc]. by destruct w.
  - rewrite join_cons, split_acc_app by done.
    cbn [app split_acc]. change (isspace 32) with true. cbv iota.
    rewrite IH. by destruct w.
Qed.

Lemma truncate_over_budget (summary : str) (max_words : Z) :
  0 <= max_words -> len (split summary) > max_words ->
  truncate_words summary max_words
  = join (pystr " ") (take (Z.to_nat max_words) (split summary)).
Proof.
  intros H0 H. unfold truncate_words.
  apply Z.gtb_gt in H as ->. by rewrite slice_to_nonneg.
Qed.

Lemma truncate_within_budget (summary : str) (max_words : Z) :
  len (split summary) <= max_words ->
  truncate_words summary max_words = summary.
Proof.
  intros H. unfold truncate_words.
  destruct (len (split summary) >? max_words) eqn:E; [|done].
  apply Z.gtb_gt in E. lia.
Qed.

Lemma truncate_word_count (summary : str) (max_words : Z) :
  0 <= max_words -> len (split (truncate_words summary max_words)) <= max_words.
Proof.
  intros H0. destruct (Z_le_gt_dec (len (split summary)) max_words) as [H|H].
  - by rewrite truncate_within_budget.
  - rewrite truncate_over_budget, split_join by
      (try apply Forall_take; try apply split_words; done).
    unfold len. rewrite length_take. lia.
Qed.

(** C9.  For a word budget [max_words >= 0]: when the
    text has more than [max_words] whitespace-separated tokens, the truncator
    returns exactly the first [max_words] of them joined by single spaces (a
    text of exactly [max_words] words); otherwise it returns the text
    unchanged; so the result never has more than [max_words] words.  It is
    what [summarize_pdf_with_cerebras] returns for a reply that is not
    empty. *)
Theorem truncate_words_spec (summary : str) (max_words : Z) :
  0 <= max_words ->
  (len (split summary) > max_words ->
     truncate_words summary max_words
       = join (pystr " ") (take (Z.to_nat max_words) (split summary)) /\
     split (truncate_words summary max_words)
       = take (Z.to_nat max_words) (split summary) /\
     len (split (truncate_words summary max_words)) = max_words) /\
  (len (split summary) <= max_words ->
     truncate_words summary max_words = summary) /\
  len (split (truncate_words summary max_words)) <= max_words /\
  (summary <> [] ->
     returned_summary (Reply (PStr summary)) max_words
     = Ok (Some (truncate_words summary max_words))).
Proof.
  intros H0. repeat apply conj.
  - intros H. pose proof (truncate_over_budget _ _ H0 H) as E.
    assert (Hs : split (truncate_words summary max_words)
                 = take (Z.to_nat max_words) (split summary)).
    { rewrite E. apply split_join, Forall_take, split_words. }
    repeat apply conj; [done..|].
    rewrite Hs. unfold len in *. rewrite length_take. lia.
  - apply truncate_within_budget.
  - by apply truncate_word_count.
  - intros Hne. unfold returned_summary. cbn [reply_value truthy].
    destruct summary as [|c s]; [done|]. rewrite len_cons.
    assert (Hl : (len s + 1 =? 0) = false)
      by (apply Z.eqb_neq; pose proof (len_nonneg s); lia).
    by rewrite Hl.
Qed.

(** The statement of [truncate_words_spec] at a 5-word text and a budget of
    3 words. *)
Lemma truncate_words_spec_witness :
  0 <= 3 /\
  truncate_words (pystr "one two  three four five") 3 = pystr "one two three".
Proof.
  split; [lia|].
  destruct (truncate_words_spec (pystr "one two  three four five") 3) as [H _];
    [lia|].
  destruct H as [E _]; [vm_compute; reflexivity|].
  rewrite E. vm_compute. reflexivity.
Defined.

(** ** Running programs *)

Section RunFacts.
Context {W : Type} (handle : forall c : call, W -> answer c * W).

Lemma run_ret {R} (r : R) (w : W) : run handle (Ret r) w = (r, [], w).
Proof. reflexivity. Qed.

Lemma run_call {R} (c : call) (k : answer c -> prog R) (w w1 : W) a :
  handle c w = (a, w1) ->
  run handle (Call c k) w =
  let '(r, t, w2) := run handle (k a) w1 in (r, IO c a :: t, w2).
Proof. intros H. simpl. by rewrite H. Qed.

(** The run of [p ≫= f] is the run of [p] followed by the run of [f] on
    its value. *)
Lemma run_bind {A B} (p : prog A) (f : A -> prog B) (w : W) :
  run handle (p ≫= f) w =
  let '(a, t1, w1) := run handle p w in
  let '(b, t2, w2) := run handle (f a) w1 in
  (b, t1 ++ t2, w2).
Proof.
  change (p ≫= f) with (bind f p).
  revert w. induction p as [a|c k IH]; intros w; simpl.
  - by destruct (run handle (f a) w) as [[b t2] w2].
  - destruct (handle c w) as [x w1]. rewrite IH.
    destruct (run handle (k x) w1) as [[a t1] w1'].
    by destruct (run handle (f a) w1') as [[b t2] w2].
Qed.
End RunFacts.

(** ** TextExtractor *)

(** [text.replace('\x00', '')] keeps the characters other than NUL. *)
Lemma replace_nul (s : str) :
  replace 0%N [] s = List.filter (fun c => negb (c =? 0)%N) s.
Proof.
  induction s as [|c s IH]; [done|].
  unfold replace in *. simpl. rewrite IH. by destruct (c =? 0)%N.
Qed.

(** C3. The checks of text extraction, in order: a path that does not exist
    fails at once ([FileMissing]); a file of size 0 fails ([FileEmpty]) after
    the size was read and before the extractor is called; an exception of
    the extractor fails ([ExtractionRaised]); otherwise NUL characters are
    removed and the text is stripped, and it is accepted exactly when at
    least 10 characters are left ([TextTooShort] below that): 9 characters
    fail, 10 are accepted. *)
Theorem extract_text_with_pdfminer_checks
    {W : Type} (handle : forall c : call, W -> answer c * W)
    (w : W) (pdf_path : str) :
  (forall w1, handle (path_exists pdf_path) w = (false, w1) ->
     run handle (extract_text_with_pdfminer pdf_path) w
     = (FileMissing, [IO (path_exists pdf_path) false], w1)) /\
  (forall w1 w2,
     handle (path_exists pdf_path) w = (true, w1) ->
     handle (path_getsize pdf_path) w1 = (Ok 0, w2) ->
     run handle (extract_text_with_pdfminer pdf_path) w
     = (FileEmpty,
        [IO (path_exists pdf_path) true; IO (path_getsize pdf_path) (Ok 0)],
        w2)) /\
  (forall w1 w2 w3 size,
     handle (path_exists pdf_path) w = (true, w1) ->
     handle (path_getsize pdf_path) w1 = (Ok size, w2) ->
     size <> 0 ->
     handle (pdf_extract_text pdf_path) w2 = (Raised, w3) ->
     run handle (extract_text_with_pdfminer pdf_path) w
     = (ExtractionRaised,
        [IO (path_exists pdf_path) true; IO (path_getsize pdf_path) (Ok size);
         IO (pdf_extract_text pdf_path) Raised],
        w3)) /\
  (forall w1 w2 w3 size raw,
     handle (path_exists pdf_path) w = (true, w1) ->
     handle (path_getsize pdf_path) w1 = (Ok size, w2) ->
     size <> 0 ->
     handle (pdf_extract_text pdf_path) w2 = (Ok raw, w3) ->
     let text := strip (List.filter (fun c => negb (c =? 0)%N) raw) in
     let outcome := fst (fst (run handle (extract_text_with_pdfminer pdf_path) w)) in
     (len text < 10 -> outcome = TextTooShort) /\
     (10 <= len text -> outcome = Extracted text) /\
     (len text = 9 -> extraction_value outcome = None) /\
     (len text = 10 -> extraction_value outcome = Some text)).
Proof.
  split; [|split; [|split]].
  - intros w1 H1. unfold extract_text_with_pdfminer. by answer_with H1.
  - intros w1 w2 H1 H2. unfold extract_text_with_pdfminer.
    answer_with H1. by answer_with H2.
  - intros w1 w2 w3 size H1 H2 Hs H3. unfold extract_text_with_pdfminer.
    answer_with H1. answer_with H2.
    apply Z.eqb_neq in Hs as ->. by answer_with H3.
  - intros w1 w2 w3 size raw H1 H2 Hs H3 text outcome.
    assert (E : outcome = if len text <? 10 then TextTooShort else Extracted text).
    { unfold outcome, text, extract_text_with_pdfminer.
      answer_with H1. answer_with H2.
      apply Z.eqb_neq in Hs as ->. answer_with H3.
      rewrite replace_nul. by destruct (len _ <? 10). }
    rewrite E. repeat apply conj; intros H.
    + by apply Z.ltb_lt in H as ->.
    + by apply Z.ltb_ge in H as ->.
    + by rewrite H.
    + by rewrite H.
Qed.

(** The checks of [extract_text_with_pdfminer_checks] on a stored file whose
    text has 9 characters after stripping, and on one with 10. *)
Lemma extract_text_with_pdfminer_checks_witness :
  fst (fst (run (env_handle (pdf_env (pystr " 123456789 ")))
              (extract_text_with_pdfminer (pystr "researchers/a/t.pdf")) tt))
  = TextTooShort /\
  fst (fst (run (env_handle (pdf_env (pystr " 1234567890 ")))
              (extract_text_with_pdfminer (pystr "researchers/a/t.pdf")) tt))
  = Extracted (pystr "1234567890").
Proof.
  split.
  - destruct (extract_text_with_pdfminer_checks
                (env_handle (pdf_env (pystr " 123456789 "))) tt
                (pystr "researchers/a/t.pdf")) as (_ & _ & _ & H).
    destruct (H tt tt tt 1024 (pystr " 123456789 ")) as (H9 & _);
      [reflexivity | reflexivity | lia | reflexivity |].
    apply H9. vm_compute. reflexivity.
  - destruct (extract_text_with_pdfminer_checks
                (env_handle (pdf_env (pystr " 1234567890 "))) tt
                (pystr "researchers/a/t.pdf")) as (_ & _ & _ & H).
    destruct (H tt tt tt 1024 (pystr " 1234567890 ")) as (_ & H10 & _);
      [reflexivity | reflexivity | lia | reflexivity |].
    rewrite H10; [vm_compute; reflexivity|]. vm_compute. discriminate.
Defined.

(** ** ModelCatalog and SummarizationSession *)

Section LlmRuns.
Context {W : Type} (handle : forall c : call, W -> answer c * W).

(** A run of [get_response]: the catalog request, and for a catalog that
    is not empty the completion request for the selected model. *)
Lemma run_get_response (self : CerebrasLLM) (user_input : str) (w w1 : W) a1 :
  handle (models_call self) w = (a1, w1) ->
  run handle (get_response self user_input) w =
  let self1 := append_turn self (user_turn user_input) in
  match model_ids a1 with
  | [] => ((self1, NoModels), [IO (models_call self) a1], w1)
  | m0 :: rest =>
      let c := completion_request self1 (select_model m0 (m0 :: rest)) in
      let '(a2, w2) := handle c w1 in
      (completion_reply self1 a2, [IO (models_call self) a1; IO c a2], w2)
  end.
Proof.
  intros H1. unfold get_response, get_available_models.
  change (models_call (append_turn self (user_turn user_input)))
    with (models_call self).
  answer_with H1. destruct (model_ids a1) as [|m0 rest]; [done|].
  cbn. by destruct (handle _ w1) as [a2 w2].
Qed.

Lemma run_summarize (pdf_text : str) (max_words : Z) (w : W) :
  too_short pdf_text = false ->
  run handle (summarize_pdf_with_cerebras pdf_text max_words) w =
  let '(llm, summary, t, w') :=
    run handle (get_response (new_CerebrasLLM summary_system_prompt)
                  (user_prompt max_words (clip_text pdf_text))) w in
  (returned_summary summary max_words, t, w').
Proof.
  intros H. unfold summarize_pdf_with_cerebras. rewrite H.
  rewrite run_bind.
  destruct (run handle _ w) as [[[llm summary] t] w']. cbn.
  by rewrite app_nil_r.
Qed.
End LlmRuns.

(** *** Model selection *)

Lemma in_models_In (p : str) (models : list pyval) :
  in_models p models = true <-> In (PStr p) models.
Proof.
  unfold in_models. rewrite existsb_exists. split.
  - intros (m & Hin & Hm). destruct m; try done.
    apply str_eqb_eq in Hm as ->. done.
  - intros Hin. exists (PStr p). split; [done|]. apply str_eqb_refl.
Qed.

Lemma in_models_not_In (p : str) (models : list pyval) :
  ~ In (PStr p) models -> in_models p models = false.
Proof.
  intros H. destruct (in_models p models) eqn:E; [|done].
  by apply in_models_In in E.
Qed.

(** The loop stops at the first preferred model that the catalog has. *)
Lemma first_preferred_found (before after : list str) (p : str) models :
  In (PStr p) models ->
  (forall q, In q before -> ~ In (PStr q) models) ->
  first_preferred (before ++ p :: after) models = Some p.
Proof.
  intros Hp. induction before as [|q before IH]; intros Hq; simpl.
  - apply in_models_In in Hp. by rewrite Hp.
  - rewrite in_models_not_In by (apply Hq; by left).
    apply IH. intros q' Hq'. apply Hq. by right.
Qed.

Lemma first_preferred_none (prefs : list str) models :
  (forall p, In p prefs -> ~ In (PStr p) models) ->
  first_preferred prefs models = None.
Proof.
  induction prefs as [|q prefs IH]; intros H; simpl; [done|].
  rewrite in_models_not_In by (apply H; by left).
  apply IH. intros p Hp. apply H. by right.
Qed.

Lemma preferred_truthy (p : str) :
  In p preferred_models -> truthy (PStr p) = true.
Proof. intros [<-|[<-|[<-|[]]]]; reflexivity. Qed.

(** C4. On a catalog that is not empty, model selection returns the first
    entry of the preference list [llama3.1-70b, llama-3.3-70b, llama3.1-8b]
    that the catalog contains, and the first entry of the catalog when it
    contains none of them; it is the model named in the completion request.
    On the catalog [modelA, llama-3.3-70b, modelB] it returns
    [llama-3.3-70b]. *)
Theorem select_model_spec (m0 : pyval) (rest : list pyval) :
  (forall before p after,
     preferred_models = before ++ p :: after ->
     In (PStr p) (m0 :: rest) ->
     (forall q, In q before -> ~ In (PStr q) (m0 :: rest)) ->
     select_model m0 (m0 :: rest) = PStr p) /\
  ((forall p, In p preferred_models -> ~ In (PStr p) (m0 :: rest)) ->
     select_model m0 (m0 :: rest) = m0) /\
  (forall (W : Type) (handle : forall c : call, W -> answer c * W)
          (w w1 : W) self user_input a1,
     handle (models_call self) w = (a1, w1) ->
     model_ids a1 = m0 :: rest ->
     exists a2,
       snd (fst (run handle (get_response self user_input) w))
       = [IO (models_call self) a1;
          IO (completion_request (append_turn self (user_turn user_input))
                (select_model m0 (m0 :: rest))) a2]) /\
  select_model (PStr (pystr "modelA"))
    [PStr (pystr "modelA"); PStr (pystr "llama-3.3-70b"); PStr (pystr "modelB")]
  = PStr (pystr "llama-3.3-70b").
Proof.
  repeat apply conj.
  - intros before p after E Hp Hq. unfold select_model.
    rewrite E, first_preferred_found by done.
    rewrite preferred_truthy; [done|].
    rewrite E. apply in_or_app. right. by left.
  - intros H. unfold select_model. by rewrite first_preferred_none.
  - intros W handle w w1 self user_input a1 H1 Hm.
    rewrite (run_get_response handle self user_input w w1 a1 H1), Hm.
    cbv zeta. destruct (handle _ w1) as [a2 w2]. by exists a2.
  - vm_compute. reflexivity.
Qed.

(** *** Empty catalog *)

Lemma rmap_raised {A B} (f : A -> result B) (l : list A) (x : A) :
  In x l -> f x = Raised -> rmap f l = Raised.
Proof.
  induction l as [|a l IH]; [done|]. intros [->|Hin] Hx; simpl.
  - by rewrite Hx.
  - rewrite (IH Hin Hx). cbn. by destruct (f a).
Qed.

(** C5. When the catalog is empty, and it is whenever the catalog request
    or the reading of its answer raises, [get_response] returns through "No
    models available" after the catalog request alone: no completion request
    is made, and [summarize_pdf_with_cerebras] returns [None]. *)
Theorem empty_catalog_no_completion
    {W : Type} (handle : forall c : call, W -> answer c * W) (w : W) :
  (forall self user_input a1 w1,
     handle (models_call self) w = (a1, w1) ->
     model_ids a1 = [] ->
     run handle (get_response self user_input) w
     = ((append_turn self (user_turn user_input), NoModels),
        [IO (models_call self) a1], w1)) /\
  (forall pdf_text max_words a1 w1,
     too_short pdf_text = false ->
     handle (models_call (new_CerebrasLLM summary_system_prompt)) w = (a1, w1) ->
     model_ids a1 = [] ->
     run handle (summarize_pdf_with_cerebras pdf_text max_words) w
     = (Ok None, [IO (models_call (new_CerebrasLLM summary_system_prompt)) a1], w1)) /\
  model_ids Raised = [] /\
  (forall resp, json resp = Raised -> model_ids (Ok resp) = []) /\
  (forall resp body, json resp = Ok body -> (forall d, body <> PDict d) ->
     model_ids (Ok resp) = []) /\
  (forall resp body data, json resp = Ok body ->
     py_get (pystr "data") (PList []) body = Ok data ->
     py_iter data = Raised ->
     model_ids (Ok resp) = []) /\
  (forall resp body data entries entry, json resp = Ok body ->
     py_get (pystr "data") (PList []) body = Ok data ->
     py_iter data = Ok entries ->
     In entry entries -> py_getitem (pystr "id") entry = Raised ->
     model_ids (Ok resp) = []).
Proof.
  repeat apply conj.
  - intros self user_input a1 w1 H1 Hm.
    by rewrite (run_get_response handle self user_input w w1 a1 H1), Hm.
  - intros pdf_text max_words a1 w1 Hs H1 Hm.
    rewrite run_summarize by done.
    by rewrite (run_get_response handle _ _ w w1 a1 H1), Hm.
  - reflexivity.
  - intros resp H. unfold model_ids. cbn. by rewrite H.
  - intros resp body H Hb. unfold model_ids. cbn. rewrite H. cbn.
    destruct body; try done. by destruct (Hb d).
  - intros resp body data H Hd Hi. unfold model_ids. cbn. rewrite H. cbn.
    rewrite Hd. cbn. by rewrite Hi.
  - intros resp body data entries entry H Hd Hi Hin He.
    unfold model_ids. cbn. rewrite H. cbn. rewrite Hd. cbn. rewrite Hi. cbn.
    by rewrite (rmap_raised _ _ _ Hin He).
Qed.

(** [empty_catalog_no_completion] where the catalog request raises, and
    where the endpoint answers with an empty list. *)
Lemma empty_catalog_no_completion_witness :
  run (env_handle (llm_env Raised (Ok (completion_response 200 (pystr "unused")))))
    (summarize_pdf_with_cerebras (repeat 97%N 60) 150) tt
  = (Ok None,
     [IO (models_call (new_CerebrasLLM summary_system_prompt)) Raised], tt) /\
  fst (run (env_handle (llm_env (Ok (catalog_response []))
                          (Ok (completion_response 200 (pystr "unused")))))
         (get_response (new_CerebrasLLM summary_system_prompt) (pystr "hello")) tt)
  = ((append_turn (new_CerebrasLLM summary_system_prompt)
        (user_turn (pystr "hello")), NoModels),
     [IO (models_call (new_CerebrasLLM summary_system_prompt))
         (Ok (catalog_response []))]).
Proof.
  split.
  - destruct (empty_catalog_no_completion
                (env_handle (llm_env Raised
                               (Ok (completion_response 200 (pystr "unused")))))
                tt) as (_ & H & _).
    apply H; [vm_compute; reflexivity | reflexivity | reflexivity].
  - destruct (empty_catalog_no_completion
                (env_handle (llm_env (Ok (catalog_response []))
                               (Ok (completion_response 200 (pystr "unused")))))
                tt) as (H & _).
    rewrite (H (new_CerebrasLLM summary_system_prompt) (pystr "hello")
               (Ok (catalog_response [])) tt); [reflexivity..|].
    vm_compute. reflexivity.
Defined.

(** *** Failed completion *)

(** Whatever the answer to the completion request, a reply that is [None]
    leaves the history as it was after the user turn, and a reply adds one
    assistant turn. *)
Lemma completion_reply_history (self : CerebrasLLM) (r : result response) :
  match snd (completion_reply self r) with
  | Reply v =>
      conversation_history (fst (completion_reply self r))
      = conversation_history self ++ [assistant_turn v]
  | _ => fst (completion_reply self r) = self
  end.
Proof.
  unfold completion_reply. destruct r as [resp|]; [|done].
  destruct (status_code resp =? 200); [|done].
  destruct (message_content resp); [|done].
  by destruct (py_len _).
Qed.

(** C6. When the completion request raises or is answered with a status
    other than 200, [get_response] returns [None] (through "LLM Error" or
    "API Error"), and the history is the one before the call with the new
    user turn appended and nothing else: no assistant turn is added. *)
Theorem failed_completion_keeps_history
    {W : Type} (handle : forall c : call, W -> answer c * W) (w w1 w2 : W)
    (self : CerebrasLLM) (user_input : str) a1 m0 rest a2 :
  handle (models_call self) w = (a1, w1) ->
  model_ids a1 = m0 :: rest ->
  handle (completion_request (append_turn self (user_turn user_input))
            (select_model m0 (m0 :: rest))) w1 = (a2, w2) ->
  a2 = Raised \/ (exists resp, a2 = Ok resp /\ status_code resp <> 200) ->
  exists self' r,
    run handle (get_response self user_input) w
    = ((self', r),
       [IO (models_call self) a1;
        IO (completion_request (append_turn self (user_turn user_input))
              (select_model m0 (m0 :: rest))) a2],
       w2) /\
    (r = LlmError \/ r = ApiError) /\
    reply_value r = None /\
    conversation_history self'
    = conversation_history self ++ [user_turn user_input] /\
    Forall (fun m => role m <> pystr "assistant")
      (skipn (length (conversation_history self)) (conversation_history self')).
Proof.
  intros H1 Hm H2 Ha.
  rewrite (run_get_response handle self user_input w w1 a1 H1), Hm.
  cbv zeta. rewrite H2.
  assert (E : completion_reply (append_turn self (user_turn user_input)) a2
              = (append_turn self (user_turn user_input), LlmError) \/
              completion_reply (append_turn self (user_turn user_input)) a2
              = (append_turn self (user_turn user_input), ApiError)).
  { destruct Ha as [->|(resp & -> & Hs)]; [by left|]. right.
    unfold completion_reply. by apply Z.eqb_neq in Hs as ->. }
  assert (Hskip : skipn (length (conversation_history self))
                    (conversation_history self ++ [user_turn user_input])
                  = [user_turn user_input]) by apply drop_app_length.
  destruct E as [-> | ->]; eexists _, _; (split; [reflexivity|]);
    cbn [conversation_history append_turn];
    rewrite Hskip; repeat apply conj; auto; by repeat constructor.
Qed.

(** [failed_completion_keeps_history] on a session whose completion
    request is answered with status 503. *)
Lemma failed_completion_keeps_history_witness :
  exists self' r,
    fst (run (env_handle (llm_env (Ok (catalog_response [pystr "llama3.1-8b"]))
                            (Ok (completion_response 503 (pystr "busy")))))
           (get_response (new_CerebrasLLM summary_system_prompt) (pystr "hello"))
           tt)
    = ((self', r),
       [IO (models_call (new_CerebrasLLM summary_system_prompt))
           (Ok (catalog_response [pystr "llama3.1-8b"]));
        IO (completion_request
              (append_turn (new_CerebrasLLM summary_system_prompt)
                 (user_turn (pystr "hello")))
              (PStr (pystr "llama3.1-8b")))
           (Ok (completion_response 503 (pystr "busy")))]) /\
    r = ApiError /\
    conversation_history self'
    = [system_turn summary_system_prompt; user_turn (pystr "hello")].
Proof.
  destruct (failed_completion_keeps_history
              (env_handle (llm_env (Ok (catalog_response [pystr "llama3.1-8b"]))
                             (Ok (completion_response 503 (pystr "busy")))))
              tt tt tt (new_CerebrasLLM summary_system_prompt) (pystr "hello")
              (Ok (catalog_response [pystr "llama3.1-8b"]))
              (PStr (pystr "llama3.1-8b")) []
              (Ok (completion_response 503 (pystr "busy"))))
    as (self' & r & Hrun & Hr & _ & Hh & _).
  - reflexivity.
  - vm_compute. reflexivity.
  - reflexivity.
  - right. eexists. split; [reflexivity|]. vm_compute. discriminate.
  - exists self', r. rewrite Hrun. repeat apply conj.
    + vm_compute. reflexivity.
    + destruct Hr as [-> | ->]; [|reflexivity].
      vm_compute in Hrun. discriminate Hrun.
    + exact Hh.
Defined.

(** *** Prompt construction *)

Lemma clip_text_long (pdf_text : str) :
  8000 < len pdf_text ->
  clip_text pdf_text = take (Z.to_nat 8000) pdf_text /\ len (clip_text pdf_text) = 8000.
Proof.
  intros H. unfold clip_text.
  assert (E : (len pdf_text >? 8000) = true) by (apply Z.gtb_gt; lia).
  rewrite E, slice_to_nonneg by lia.
  split; [done|]. unfold len in *. rewrite length_take. lia.
Qed.

Lemma clip_text_short (pdf_text : str) :
  len pdf_text <= 8000 -> clip_text pdf_text = pdf_text.
Proof.
  intros H. unfold clip_text.
  destruct (len pdf_text >? 8000) eqn:E; [|done].
  apply Z.gtb_gt in E. lia.
Qed.

(** C7. A document text longer than 8000 characters enters the prompt as
    its first 8000 characters, and a text of at most 8000 characters enters
    it whole: whenever [summarize_pdf_with_cerebras] sends a completion
    request, its messages are the system turn and one user turn whose
    content is the instructions, the clipped text and the closing line.  The
    clipped text is a new value ([clip_text] of the argument): the argument
    itself is a string and stays what it was. *)
Theorem prompt_embeds_clipped_text (pdf_text : str) (max_words : Z) :
  (8000 < len pdf_text ->
     clip_text pdf_text = take (Z.to_nat 8000) pdf_text /\
     len (clip_text pdf_text) = 8000) /\
  (len pdf_text <= 8000 -> clip_text pdf_text = pdf_text) /\
  (forall (W : Type) (handle : forall c : call, W -> answer c * W) (w : W)
          url body a,
     In (IO (requests_post url body) a)
        (snd (fst (run handle (summarize_pdf_with_cerebras pdf_text max_words) w))) ->
     messages body
     = [system_turn summary_system_prompt;
        user_turn (prompt_head max_words ++ clip_text pdf_text ++ prompt_tail)]) /\
  len (clip_text (repeat 97%N (Z.to_nat 9000))) = 8000.
Proof.
  repeat apply conj.
  - apply clip_text_long.
  - apply clip_text_short.
  - intros W handle w url body a Hin.
    destruct (too_short pdf_text) eqn:Hs.
    { unfold summarize_pdf_with_cerebras in Hin. rewrite Hs in Hin. done. }
    rewrite run_summarize in Hin by done.
    destruct (handle (models_call (new_CerebrasLLM summary_system_prompt)) w)
      as [a1 w1] eqn:H1.
    rewrite (run_get_response handle _ _ w w1 a1 H1) in Hin.
    cbv zeta in Hin. destruct (model_ids a1) as [|m0 rest].
    + destruct Hin as [E|[]]. apply (f_equal io_call) in E. discriminate E.
    + destruct (handle _ w1) as [a2 w2].
      destruct (completion_reply _ a2) as [llm summary].
      destruct Hin as [E|[E|[]]]; apply (f_equal io_call) in E;
        [discriminate E|].
      injection E as Eu Eb. by rewrite <- Eb.
  - vm_compute. reflexivity.
Qed.

(** [prompt_embeds_clipped_text] on a text of 9000 characters and an
    endpoint that serves a model: the completion request carries the
    instructions around the first 8000 characters. *)
Lemma prompt_embeds_clipped_text_witness :
  exists url body a,
    In (IO (requests_post url body) a)
       (snd (fst (run (env_handle serving_env)
                    (summarize_pdf_with_cerebras (repeat 97%N (Z.to_nat 9000)) 150)
                    tt))) /\
    messages body
    = [system_turn summary_system_prompt;
       user_turn (prompt_head 150 ++ repeat 97%N (Z.to_nat 8000) ++ prompt_tail)].
Proof.
  destruct (prompt_embeds_clipped_text (repeat 97%N (Z.to_nat 9000)) 150)
    as (Hlong & _ & Hposts & _).
  destruct Hlong as [Hclip _]; [vm_compute; reflexivity|].
  eexists _, _, _. split.
  - vm_compute. right. left. reflexivity.
  - erewrite (Hposts unit (env_handle serving_env) tt).
    + rewrite Hclip. vm_compute. reflexivity.
    + vm_compute. right. left. reflexivity.
Defined.

(** *** The guard of the summarizer *)

(** C10. A text whose stripped length is below 50 characters is not
    summarized: [summarize_pdf_with_cerebras] returns [None] at once, as the
    program that makes no call at all (no session, no model selection, no
    request).  This holds for texts of 10 to 49 characters too, which the
    extractor accepts. *)
Theorem short_text_not_summarized (pdf_text : str) (max_words : Z) :
  len (strip pdf_text) < 50 ->
  summarize_pdf_with_cerebras pdf_text max_words = Ret (Ok None) /\
  forall (W : Type) (handle : forall c : call, W -> answer c * W) (w : W),
    run handle (summarize_pdf_with_cerebras pdf_text max_words) w
    = (Ok None, [], w).
Proof.
  intros H. unfold summarize_pdf_with_cerebras, too_short.
  apply Z.ltb_lt in H as ->. by rewrite orb_true_r.
Qed.

(** [short_text_not_summarized] on a text of 10 characters, which
    [extract_text_with_pdfminer] accepts. *)
Lemma short_text_not_summarized_witness :
  10 <= len (strip (pystr "0123456789")) < 50 /\
  summarize_pdf_with_cerebras (pystr "0123456789") 150 = Ret (Ok None).
Proof.
  assert (E : len (strip (pystr "0123456789")) = 10)
    by (vm_compute; reflexivity).
  split; [rewrite E; lia|].
  apply (short_text_not_summarized (pystr "0123456789") 150).
  vm_compute. reflexivity.
Defined.

(** ** LinkResolver *)

Lemma split_on_acc_plain (sep : N) (cur a : str) :
  ~ In sep a -> split_on_acc sep cur a = [cur ++ a].
Proof.
  revert cur. induction a as [|c a IH]; intros cur H; simpl.
  - by rewrite app_nil_r.
  - destruct (c =? sep)%N eqn:E.
    + apply N.eqb_eq in E as ->. destruct H. by left.
    + rewrite IH, <- app_assoc; [done|]. intros Hin. apply H. by right.
Qed.

Lemma split_on_acc_sep (sep : N) (cur a rest : str) :
  ~ In sep a ->
  split_on_acc sep cur (a ++ sep :: rest) = (cur ++ a) :: split_on_acc sep [] rest.
Proof.
  revert cur. induction a as [|c a IH]; intros cur H; simpl.
  - by rewrite N.eqb_refl, app_nil_r.
  - destruct (c =? sep)%N eqn:E.
    + apply N.eqb_eq in E as ->. destruct H. by left.
    + rewrite IH, <- app_assoc; [done|]. intros Hin. apply H. by right.
Qed.

(** In a path [/a/d/ID] or [/a/d/ID/...], where [a] and [ID] have no [/],
    the component at index 3 is [ID], the one that follows [/d/]. *)
Lemma fourth_component (a id rest : str) :
  ~ In 47%N a -> ~ In 47%N id ->
  rest = [] \/ (exists rest', rest = 47%N :: rest') ->
  split_on 47 (pystr "/" ++ a ++ pystr "/d/" ++ id ++ rest) !! 3%nat = Some id.
Proof.
  intros Ha Hid Hrest. unfold split_on.
  change (pystr "/" ++ ?x) with ([] ++ 47%N :: x).
  rewrite split_on_acc_sep by (intros []).
  change (pystr "/d/" ++ ?x) with (47%N :: ([100%N] ++ 47%N :: x)).
  rewrite split_on_acc_sep by done.
  rewrite split_on_acc_sep by (intros [?|[]]; discriminate).
  destruct Hrest as [-> | [rest' ->]].
  - rewrite (app_nil_r id), split_on_acc_plain by done. done.
  - rewrite split_on_acc_sep by done. done.
Qed.

Lemma cut_acc_first (sep : N) (cur a rest : str) :
  ~ In sep a -> cut_acc sep cur (a ++ sep :: rest) = Some (cur ++ a, rest).
Proof.
  revert cur. induction a as [|c a IH]; intros cur H; simpl.
  - by rewrite N.eqb_refl, app_nil_r.
  - destruct (c =? sep)%N eqn:E.
    + apply N.eqb_eq in E as ->. destruct H. by left.
    + rewrite IH, <- app_assoc; [done|]. intros Hin. apply H. by right.
Qed.

Lemma replace_absent (old : N) (new s : str) :
  ~ In old s -> replace old new s = s.
Proof.
  unfold replace. induction s as [|c s IH]; intros H; simpl; [done|].
  destruct (c =? old)%N eqn:E.
  - apply N.eqb_eq in E as ->. destruct H. by left.
  - rewrite IH; [done|]. intros Hin. apply H. by right.
Qed.

Lemma py_in_char (c : N) (s : str) : py_in [c] s = true <-> In c s.
Proof.
  induction s as [|d s IH]; simpl; [done|].
  rewrite andb_true_r, orb_true_iff, IH, N.eqb_eq.
  split; (intros [->|H]; [by left|by right]).
Qed.

Lemma assoc_dict_append (name n v : str) (d : list (str * list str)) :
  assoc name (dict_append n v d)
  = if str_eqb name n
    then Some (match assoc name d with Some old => old ++ [v] | None => [v] end)
    else assoc name d.
Proof.
  induction d as [|[k vs] d IH]; simpl.
  - by destruct (str_eqb name n).
  - destruct (str_eqb n k) eqn:Enk; simpl.
    + apply str_eqb_eq in Enk as ->. by destruct (str_eqb name k).
    + rewrite IH. destruct (str_eqb name k) eqn:Ek; [|done].
      apply str_eqb_eq in Ek as ->.
      destruct (str_eqb k n) eqn:Ekn; [|done].
      apply str_eqb_eq in Ekn as ->. by rewrite str_eqb_refl in Enk.
Qed.

(** [parse_qs(qs).get(name)] is the list of the values of the fields called
    [name], in order, and is missing when there is none. *)
Lemma assoc_fold_dict_append (name : str) (pairs : list (str * str)) d :
  assoc name (fold_left (fun d nv => dict_append (fst nv) (snd nv) d) pairs d)
  = match assoc name d, values_of name pairs with
    | Some old, vs => Some (old ++ vs)
    | None, [] => None
    | None, vs => Some vs
    end.
Proof.
  revert d. induction pairs as [|[n v] pairs IH]; intros d; simpl.
  - unfold values_of. simpl. destruct (assoc name d); [|done].
    by rewrite app_nil_r.
  - rewrite IH, assoc_dict_append. unfold values_of. simpl.
    destruct (str_eqb name n); simpl; [|done].
    destruct (assoc name d); [by rewrite <- app_assoc|done].
Qed.

Section Resolver.
Variable unquote : str -> str.
Variable netloc_ok : str -> bool.

(** The fallback of line 495 on the parsed path. *)
Lemma extract_file_id_cases (drive_link : str) (p : ParseResult) :
  urlparse netloc_ok drive_link = Ok p ->
  extract_file_id unquote netloc_ok drive_link
  = let from_path :=
      if py_in (pystr "/d/") (path p)
      then match split_on 47 (path p) !! 3%nat with
           | Some segment => Ok (Some segment)
           | None => Raised
           end
      else Ok None in
    match values_of (pystr "id") (parse_qsl unquote (query p)) with
    | [] => from_path
    | [] :: _ => from_path
    | v :: _ => Ok (Some v)
    end.
Proof.
  intros Hp. unfold extract_file_id. rewrite Hp. cbn [mbind result_bind].
  unfold parse_qs. rewrite assoc_fold_dict_append. cbn [assoc].
  destruct (values_of _ _) as [|[|c v] vs]; reflexivity.
Qed.

(** A query [id=V], where [V] is not empty and has none of [&], [+], [%],
    has the one value [V] for [id]. *)
Lemma values_of_id_query (v : str) :
  (forall s, ~ In 37%N s -> unquote s = s) ->
  v <> [] -> ~ In 38%N v -> ~ In 43%N v -> ~ In 37%N v ->
  values_of (pystr "id") (parse_qsl unquote (pystr "id=" ++ v)) = [v].
Proof.
  intros Hunq Hne Hamp Hplus Hpct.
  change (pystr "id=" ++ v) with ([105%N; 100%N] ++ 61%N :: v).
  change (pystr "id") with [105%N; 100%N].
  unfold parse_qsl, split_on. cbn [app len length Z.of_nat Z.eqb].
  assert (Hlen : (Z.of_nat (S (S (S (length v)))) =? 0) = false)
    by (apply Z.eqb_neq; lia).
  unfold len. cbn [length]. rewrite Hlen.
  rewrite split_on_acc_plain.
  2:{ intros [E|[E|[E|Hin]]]; try discriminate E. done. }
  cbn [flat_map app]. rewrite app_nil_r. unfold parse_field.
  unfold len. cbn [length]. rewrite Hlen.
  unfold cut. change (105%N :: 100%N :: 61%N :: v) with ([105%N; 100%N] ++ 61%N :: v).
  rewrite cut_acc_first by (intros [E|[E|[]]]; discriminate E).
  cbn [app].
  assert (Hv : (Z.of_nat (length v) =? 0) = false).
  { apply Z.eqb_neq. destruct v; [done|]. simpl. lia. }
  rewrite Hv.
  rewrite (replace_absent 43 _ v) by done.
  change (replace 43 [32%N] [105%N; 100%N]) with [105%N; 100%N].
  rewrite (Hunq v) by done.
  rewrite (Hunq [105%N; 100%N]) by (intros [E|[E|[]]]; discriminate E).
  unfold values_of. cbn [List.filter fst snd map].
  by rewrite str_eqb_refl.
Qed.
End Resolver.

Section Download.
Variable unquote : str -> str.
Variable netloc_ok : str -> bool.
Variable stdout_encodes : str -> bool.
Context {W : Type} (handle : forall c : call, W -> answer c * W).

(** A run of [download_pdf]: nothing is called for a link without an id;
    otherwise the export URL of the id is requested, and only a 200 answer
    leads on to the storing of the file. *)
Lemma run_download_pdf (drive_link email title : str) (w : W) :
  run handle (download_pdf unquote netloc_ok stdout_encodes
                          drive_link email title) w
  = match extract_file_id unquote netloc_ok drive_link with
    | Raised => (DownloadRaised, [], w)
    | Ok None => (InvalidLink, [], w)
    | Ok (Some id) =>
        if no_id (Some id) then (InvalidLink, [], w)
        else
          let c := requests_get (export_url id) in
          let '(a, w1) := handle c w in
          match a with
          | Raised => (DownloadRaised, [IO c Raised], w1)
          | Ok resp =>
              if negb (status_code resp =? 200)
              then (DownloadFailed, [IO c (Ok resp)], w1)
              else let '(r, t, w2) :=
                     run handle (store_pdf stdout_encodes resp email title) w1 in
                   (r, IO c (Ok resp) :: t, w2)
          end
    end.
Proof.
  unfold download_pdf.
  destruct (extract_file_id unquote netloc_ok drive_link) as [[id|]|]; try done.
  destruct (no_id (Some id)); [done|].
  cbn [run bind mbind prog_bind perform].
  destruct (handle (requests_get (export_url id)) w) as [[resp|] w1]; [|done].
  by destruct (negb (status_code resp =? 200)).
Qed.
End Download.

(** C1, as the code has it.  For a share link that [urlparse] accepts, with
    path [P] and query [Q]:
    - if [parse_qs(Q)] has a field named [id] whose first value is not
      empty, that value is the file id;
    - otherwise, if ['/d/'] occurs in [P], the file id is the component at
      index 3 of [P.split('/')]: it is the segment that follows [/d/] in a
      path of the form [/x/d/ID] or [/x/d/ID/...]; a path with fewer
      than four components raises, and an empty component is no id;
    - otherwise there is no id.
    [download_pdf] requests the export URL of that id and no other;
    without an id it prints "Invalid Google Drive link." (or, after an
    exception, "An error occurred") and makes no call. *)
Theorem file_id_of_link (unquote : str -> str) (netloc_ok : str -> bool)
    (drive_link : str) (p : ParseResult) :
  urlparse netloc_ok drive_link = Ok p ->
  let id_values := values_of (pystr "id") (parse_qsl unquote (query p)) in
  let file_id := extract_file_id unquote netloc_ok drive_link in
  let no_query_id := id_values = [] \/ (exists vs, id_values = [] :: vs) in
  (forall v vs, id_values = v :: vs -> v <> [] -> file_id = Ok (Some v)) /\
  (forall segment, no_query_id ->
     py_in (pystr "/d/") (path p) = true ->
     split_on 47 (path p) !! 3%nat = Some segment ->
     file_id = Ok (Some segment)) /\
  (no_query_id -> py_in (pystr "/d/") (path p) = true ->
     split_on 47 (path p) !! 3%nat = None -> file_id = Raised) /\
  (no_query_id -> py_in (pystr "/d/") (path p) = false -> file_id = Ok None) /\
  (forall a id rest,
     path p = pystr "/" ++ a ++ pystr "/d/" ++ id ++ rest ->
     ~ In 47%N a -> ~ In 47%N id ->
     rest = [] \/ (exists rest', rest = 47%N :: rest') ->
     py_in (pystr "/d/") (path p) = true /\
     split_on 47 (path p) !! 3%nat = Some id) /\
  (forall v,
     (forall s, ~ In 37%N s -> unquote s = s) ->
     query p = pystr "id=" ++ v ->
     v <> [] -> ~ In 38%N v -> ~ In 43%N v -> ~ In 37%N v ->
     file_id = Ok (Some v)) /\
  (forall (stdout_encodes : str -> bool)
          (W : Type) (handle : forall c : call, W -> answer c * W) (w : W)
          email title,
     let r := run handle (download_pdf unquote netloc_ok stdout_encodes
                          drive_link email title) w in
     match file_id with
     | Ok (Some []) | Ok None => r = (InvalidLink, [], w)
     | Raised => r = (DownloadRaised, [], w)
     | Ok (Some id) =>
         exists a t, snd (fst r) = IO (requests_get (export_url id)) a :: t
     end).
Proof.
  intros Hp id_values file_id no_query_id.
  pose proof (extract_file_id_cases unquote netloc_ok drive_link p Hp) as E.
  fold file_id id_values in E. cbv zeta in E.
  repeat apply conj.
  - intros v vs Hv Hne. rewrite E, Hv. by destruct v.
  - intros segment Hq Hd Hs. rewrite E, Hd, Hs.
    by destruct Hq as [-> | [vs ->]].
  - intros Hq Hd Hs. rewrite E, Hd, Hs.
    by destruct Hq as [-> | [vs ->]].
  - intros Hq Hd. rewrite E, Hd.
    by destruct Hq as [-> | [vs ->]].
  - intros a id rest Hpath Ha Hid Hrest. rewrite Hpath. split.
    + apply py_in_occurs. exists (pystr "/" ++ a), (id ++ rest).
      by rewrite <- !app_assoc.
    + by apply fourth_component.
  - intros v Hunq Hq Hne Hamp Hplus Hpct.
    assert (Hv : id_values = [v]).
    { unfold id_values. rewrite Hq. by apply values_of_id_query. }
    rewrite E, Hv. by destruct v.
  - intros stdout_encodes W handle w email title r. unfold r.
    rewrite run_download_pdf. fold file_id.
    destruct file_id as [[[|c id]|]|]; try done.
    cbn [no_id truthy]. rewrite len_cons.
    assert (Hl : negb (negb (len id + 1 =? 0)) = false).
    { rewrite negb_involutive. apply Z.eqb_neq.
      pose proof (len_nonneg id). lia. }
    rewrite Hl. cbv zeta.
    destruct (handle (requests_get (export_url (c :: id))) w) as [[resp|] w1].
    + destruct (negb (status_code resp =? 200)); [by eexists _, _|].
      destruct (run handle (store_pdf stdout_encodes resp email title) w1)
        as [[r' t] w2].
      by eexists _, _.
    + by eexists _, _.
Qed.

(** [file_id_of_link] on the two link forms: the value of [id] in
    [https://drive.example.com/open?id=ABC123], and the component after
    [/d/] in [https://drive.example.com/file/d/XYZ789/view]. *)
Lemma file_id_of_link_witness :
  extract_file_id unquote_ascii netloc_plain
    (pystr "https://drive.example.com/open?id=ABC123")
  = Ok (Some (pystr "ABC123")) /\
  extract_file_id unquote_ascii netloc_plain
    (pystr "https://drive.example.com/file/d/XYZ789/view")
  = Ok (Some (pystr "XYZ789")).
Proof.
  split.
  - destruct (file_id_of_link unquote_ascii netloc_plain
                (pystr "https://drive.example.com/open?id=ABC123")
                (Build_ParseResult (pystr "https") (pystr "drive.example.com")
                   (pystr "/open") [] (pystr "id=ABC123") []))
      as (H & _); [vm_compute; reflexivity|].
    apply (H (pystr "ABC123") []); [vm_compute; reflexivity|discriminate].
  - destruct (file_id_of_link unquote_ascii netloc_plain
                (pystr "https://drive.example.com/file/d/XYZ789/view")
                (Build_ParseResult (pystr "https") (pystr "drive.example.com")
                   (pystr "/file/d/XYZ789/view") [] [] []))
      as (_ & H & _); [vm_compute; reflexivity|].
    apply (H (pystr "XYZ789")); [by left| |]; vm_compute; reflexivity.
Defined.

(** C1, as stated, fails where [/d/] is not the second segment of the path:
    in [https://drive.google.com/d/XYZ789/view] the segment that follows
    [/d/] is [XYZ789], and the file id is [view], the component at index 3;
    in [https://drive.google.com/d/XYZ789] there is no such component and
    the lookup raises.  A blank [id] parameter is passed over for the
    path. *)
Lemma file_id_not_after_d :
  extract_file_id unquote_ascii netloc_plain
    (pystr "https://drive.google.com/d/XYZ789/view")
  = Ok (Some (pystr "view")) /\
  extract_file_id unquote_ascii netloc_plain
    (pystr "https://drive.google.com/d/XYZ789")
  = Raised /\
  extract_file_id unquote_ascii netloc_plain
    (pystr "https://drive.google.com/file/d/XYZ789/view?id=")
  = Ok (Some (pystr "XYZ789")).
Proof. repeat apply conj; vm_compute; reflexivity. Qed.

(** ** DocumentFetcher *)

(** C2. When the download request is answered with a status other than
    200, [download_pdf] returns through "Failed to download the file" after
    that one request: it makes no file-system call, so every stored file,
    and the one at [researchers/{email}/{title}.pdf] in particular, is what
    it was.  In every run, a call that creates, writes or deletes a file
    comes after a download request that was answered with status 200. *)
Theorem failed_download_touches_nothing
    (unquote : str -> str) (netloc_ok : str -> bool)
    (stdout_encodes : str -> bool)
    {W : Type} (handle : forall c : call, W -> answer c * W) (w : W)
    (drive_link email title : str) :
  let r := run handle (download_pdf unquote netloc_ok stdout_encodes
                          drive_link email title) w in
  let target_path :=
    path_join (pystr "researchers/" ++ email) (title ++ pystr ".pdf") in
  (forall id resp w1,
     extract_file_id unquote netloc_ok drive_link = Ok (Some id) ->
     id <> [] ->
     handle (requests_get (export_url id)) w = (Ok resp, w1) ->
     status_code resp <> 200 ->
     r = (DownloadFailed, [IO (requests_get (export_url id)) (Ok resp)], w1) /\
     Forall (fun e => touches_files e = false) (snd (fst r)) /\
     (forall fs : gmap str bytes,
        fs_after (snd (fst r)) fs = fs /\
        fs_after (snd (fst r)) fs !! target_path = fs !! target_path)) /\
  (forall e, In e (snd (fst r)) -> touches_files e = true ->
     exists id resp t,
       snd (fst r) = IO (requests_get (export_url id)) (Ok resp) :: t /\
       status_code resp = 200 /\ In e t).
Proof.
  intros r target_path. split.
  - intros id resp w1 Hid Hne Hget Hstatus.
    assert (E : r = (DownloadFailed,
                     [IO (requests_get (export_url id)) (Ok resp)], w1)).
    { unfold r. rewrite run_download_pdf, Hid.
      destruct id as [|c id]; [done|].
      cbn [no_id truthy]. rewrite len_cons.
      assert (Hl : negb (negb (len id + 1 =? 0)) = false).
      { rewrite negb_involutive. apply Z.eqb_neq.
        pose proof (len_nonneg id). lia. }
      rewrite Hl. cbv zeta. rewrite Hget.
      by apply Z.eqb_neq in Hstatus as ->. }
    rewrite E. cbn [fst snd]. repeat apply conj;
      [done | constructor; [reflexivity|constructor] | done].
  - intros e Hin He. unfold r in *. rewrite run_download_pdf in *.
    destruct (extract_file_id unquote netloc_ok drive_link) as [[id|]|];
      try done.
    destruct (no_id (Some id)); [done|]. cbv zeta in *.
    destruct (handle (requests_get (export_url id)) w) as [[resp|] w1].
    + destruct (status_code resp =? 200) eqn:Hs; cbn [negb] in *.
      * destruct (run handle (store_pdf stdout_encodes resp email title) w1)
          as [[r' t] w2].
        cbn [fst snd] in *. exists id, resp, t.
        apply Z.eqb_eq in Hs. repeat apply conj; [done..|].
        destruct Hin as [<-|Hin]; [done|done].
      * destruct Hin as [<-|[]]. done.
    + destruct Hin as [<-|[]]. done.
Qed.

(** [failed_download_touches_nothing] on a download answered with status
    404 while [researchers/a@b.c/paper.pdf] is stored. *)
Lemma failed_download_touches_nothing_witness :
  fst (fst (run (env_handle (download_env (Ok (Response 404 Raised [] false)) true))
              (download_pdf unquote_ascii netloc_plain utf8_stdout
                 (pystr "https://drive.example.com/open?id=ABC123")
                 (pystr "a@b.c") (pystr "paper")) tt))
  = DownloadFailed /\
  fs_after
    (snd (fst (run (env_handle (download_env (Ok (Response 404 Raised [] false)) true))
                 (download_pdf unquote_ascii netloc_plain utf8_stdout
                    (pystr "https://drive.example.com/open?id=ABC123")
                    (pystr "a@b.c") (pystr "paper")) tt)))
    stored_paper
  !! pystr "researchers/a@b.c/paper.pdf"
  = Some [Byte.x25; Byte.x50; Byte.x44; Byte.x46].
Proof.
  destruct (failed_download_touches_nothing unquote_ascii netloc_plain utf8_stdout
              (env_handle (download_env (Ok (Response 404 Raised [] false)) true))
              tt (pystr "https://drive.example.com/open?id=ABC123")
              (pystr "a@b.c") (pystr "paper")) as [H _].
  destruct (H (pystr "ABC123") (Response 404 Raised [] false) tt)
    as (E & _ & Hfs).
  - vm_compute. reflexivity.
  - discriminate.
  - reflexivity.
  - vm_compute. discriminate.
  - split; [by rewrite E|].
    destruct (Hfs stored_paper) as [-> _]. reflexivity.
Defined.

(** * Further properties *)

(** ** The conversation of a [CerebrasLLM] *)

Lemma sanitize_string (s : str) :
  exists s', extract_actual_response (PStr s) = PStr s'.
Proof.
  unfold extract_actual_response, extract_actual_response_try.
  cbn [mbind result_bind marker_in]. destruct (py_in think_end s); eauto.
Qed.

Lemma first_preferred_in (prefs : list str) (models : list pyval) (p : str) :
  first_preferred prefs models = Some p ->
  In p prefs /\ In (PStr p) models.
Proof.
  induction prefs as [|q prefs IH]; simpl; [done|].
  destruct (in_models q models) eqn:E.
  - intros [= <-]. split; [by left|]. by apply in_models_In.
  - intros H. destruct (IH H). split; [by right|done].
Qed.

Section Conversation.
Context {W : Type} (handle : forall c : call, W -> answer c * W).

(** A run of [summarize_pdf_with_cerebras] that reaches the completion
    request. *)
Lemma run_summarize_completed (pdf_text : str) (max_words : Z) (w w1 w2 : W)
    a1 m0 rest a2 :
  too_short pdf_text = false ->
  let llm := append_turn (new_CerebrasLLM summary_system_prompt)
               (user_turn (user_prompt max_words (clip_text pdf_text))) in
  handle (models_call llm) w = (a1, w1) ->
  model_ids a1 = m0 :: rest ->
  handle (completion_request llm (select_model m0 (m0 :: rest))) w1 = (a2, w2) ->
  run handle (summarize_pdf_with_cerebras pdf_text max_words) w
  = (returned_summary (snd (completion_reply llm a2)) max_words,
     [IO (models_call llm) a1;
      IO (completion_request llm (select_model m0 (m0 :: rest))) a2],
     w2).
Proof.
  intros Hs llm H1 Hm H2. rewrite run_summarize by done.
  assert (H1' : handle (models_call (new_CerebrasLLM summary_system_prompt)) w
                = (a1, w1)) by exact H1.
  rewrite (run_get_response handle (new_CerebrasLLM summary_system_prompt)
             _ w w1 a1 H1'), Hm. cbv zeta.
  fold llm. rewrite H2. by destruct (completion_reply llm a2).
Qed.

(** X1. Whatever the endpoint answers, [get_response] only appends to the
    history: the user turn, and after it the assistant turn exactly when a
    reply is returned.  The earlier turns, the system prompt and the base
    URL stay as they were. *)
Theorem get_response_appends (self : CerebrasLLM) (user_input : str) (w : W) :
  let out := fst (fst (run handle (get_response self user_input) w)) in
  conversation_history (fst out)
  = conversation_history self
    ++ user_turn user_input
       :: match snd out with
          | Reply v => [assistant_turn v]
          | _ => []
          end /\
  system_prompt (fst out) = system_prompt self /\
  base_url (fst out) = base_url self.
Proof.
  destruct (handle (models_call self) w) as [a1 w1] eqn:H1.
  rewrite (run_get_response handle self user_input w w1 a1 H1). cbv zeta.
  destruct (model_ids a1) as [|m0 rest].
  - done.
  - destruct (handle _ w1) as [a2 w2]. cbn [fst snd].
    pose proof (completion_reply_history
                  (append_turn self (user_turn user_input)) a2) as Hh.
    assert (Hf : system_prompt
                   (fst (completion_reply (append_turn self (user_turn user_input)) a2))
                 = system_prompt self /\
                 base_url
                   (fst (completion_reply (append_turn self (user_turn user_input)) a2))
                 = base_url self).
    { unfold completion_reply. destruct a2 as [resp|]; [|done].
      destruct (status_code resp =? 200); [|done].
      destruct (message_content resp); [|done].
      by destruct (py_len _). }
    split; [|exact Hf].
    destruct (snd (completion_reply _ a2)).
    1-3: by rewrite Hh.
    rewrite Hh. cbn [append_turn conversation_history].
    by rewrite <- app_assoc.
Qed.

(** X2. When the completion request is answered with status 200 and a
    message whose content is a string, [get_response] returns the sanitized
    content, a string, and appends it to the history as the assistant turn
    after the user turn. *)
Theorem completed_reply_is_sanitized (self : CerebrasLLM) (user_input : str)
    (w w1 w2 : W) a1 m0 rest resp (text : str) :
  handle (models_call self) w = (a1, w1) ->
  model_ids a1 = m0 :: rest ->
  handle (completion_request (append_turn self (user_turn user_input))
            (select_model m0 (m0 :: rest))) w1 = (Ok resp, w2) ->
  status_code resp = 200 ->
  message_content resp = Ok (PStr text) ->
  exists sanitized : str,
    extract_actual_response (PStr text) = PStr sanitized /\
    fst (fst (run handle (get_response self user_input) w))
    = (Llm (system_prompt self) (base_url self)
         (conversation_history self
          ++ [user_turn user_input; assistant_turn (PStr sanitized)]),
       Reply (PStr sanitized)).
Proof.
  intros H1 Hm H2 Hs Hc. destruct (sanitize_string text) as [sanitized Ha].
  exists sanitized. split; [done|].
  rewrite (run_get_response handle self user_input w w1 a1 H1), Hm.
  cbv zeta. rewrite H2. cbn [fst]. unfold completion_reply.
  rewrite Hs, Hc. cbv zeta. rewrite Ha.
  cbn [Z.eqb Pos.eqb py_len]. unfold append_turn.
  cbn [conversation_history system_prompt base_url].
  by rewrite <- app_assoc.
Qed.
End Conversation.

(** [completed_reply_is_sanitized] on an endpoint that answers with hidden
    reasoning before the summary. *)
Lemma completed_reply_is_sanitized_witness :
  exists sanitized : str,
    extract_actual_response (PStr (pystr "thinking</think> the summary"))
    = PStr sanitized /\
    fst (fst (run (env_handle
                     (llm_env (Ok (catalog_response [pystr "llama3.1-8b"]))
                        (Ok (completion_response 200
                               (pystr "thinking</think> the summary")))))
                (get_response (new_CerebrasLLM summary_system_prompt)
                   (pystr "hello")) tt))
    = (Llm summary_system_prompt CEREBRAS_BASE_URL
         ([system_turn summary_system_prompt]
          ++ [user_turn (pystr "hello"); assistant_turn (PStr sanitized)]),
       Reply (PStr sanitized)).
Proof.
  apply (completed_reply_is_sanitized
           (env_handle (llm_env (Ok (catalog_response [pystr "llama3.1-8b"]))
                          (Ok (completion_response 200
                                 (pystr "thinking</think> the summary")))))
           (new_CerebrasLLM summary_system_prompt) (pystr "hello") tt tt tt
           (Ok (catalog_response [pystr "llama3.1-8b"]))
           (PStr (pystr "llama3.1-8b")) []
           (completion_response 200 (pystr "thinking</think> the summary"))
           (pystr "thinking</think> the summary"));
    try reflexivity; vm_compute; reflexivity.
Defined.

(** ** Replies that are not text *)

(** X3. A completion answered with status 200 whose message content is not
    a string: [null], a boolean or a number is an "LLM Error" and leaves no
    assistant turn; an array or an object is returned and recorded as it is,
    and [summarize_pdf_with_cerebras] then raises on [summary.split()]
    unless the value is empty, in which case it returns [None]. *)
Theorem reply_that_is_not_text (self : CerebrasLLM) (resp : response)
    (v : pyval) (max_words : Z) :
  status_code resp = 200 ->
  message_content resp = Ok v ->
  (forall s, v <> PStr s) ->
  match py_len v with
  | Raised => completion_reply self (Ok resp) = (self, LlmError)
  | Ok n =>
      completion_reply self (Ok resp)
      = (append_turn self (assistant_turn v), Reply v) /\
      returned_summary (Reply v) max_words
      = if n =? 0 then Ok None else Raised
  end.
Proof.
  intros Hs Hc Hv. unfold completion_reply. rewrite Hs, Hc. cbv zeta.
  rewrite (sanitize_not_a_string v Hv). cbn [Z.eqb Pos.eqb].
  destruct v as [| | | |s|l|d]; try done.
  - by destruct (Hv s).
  - split; [done|]. unfold returned_summary. cbn [reply_value truthy py_len].
    by destruct (len l =? 0).
  - split; [done|]. unfold returned_summary. cbn [reply_value truthy py_len].
    by destruct (len d =? 0).
Qed.

(** [reply_that_is_not_text] on a content given as a list of parts. *)
Lemma reply_that_is_not_text_witness :
  returned_summary
    (Reply (PList [PDict [(pystr "text", PStr (pystr "a summary"))]])) 150
  = Raised.
Proof.
  pose proof (reply_that_is_not_text
                (new_CerebrasLLM summary_system_prompt)
                (Response 200
                   (Ok (PDict [(pystr "choices",
                        PList [PDict [(pystr "message",
                          PDict [(pystr "content",
                            PList [PDict [(pystr "text",
                                           PStr (pystr "a summary"))]])])]])]))
                   [] false)
                (PList [PDict [(pystr "text", PStr (pystr "a summary"))]])
                150) as H.
  destruct H as [_ H]; [reflexivity | vm_compute; reflexivity | discriminate |].
  exact H.
Defined.

(** ** The catalog *)

(** X4. The selected model is always an entry of the catalog: the request
    never names a model that the endpoint did not list. *)
Theorem select_model_in_catalog (m0 : pyval) (rest : list pyval) :
  In (select_model m0 (m0 :: rest)) (m0 :: rest).
Proof.
  unfold select_model.
  destruct (first_preferred preferred_models (m0 :: rest)) as [p|] eqn:E;
    [|by left].
  destruct (first_preferred_in _ _ _ E) as [_ Hin].
  destruct (truthy (PStr p)); [done|by left].
Qed.

Lemma rmap_ok {A B} (f : A -> result B) (l : list A) (l' : list B) :
  Forall2 (fun a b => f a = Ok b) l l' -> rmap f l = Ok l'.
Proof.
  induction 1 as [|a b l l' Hab _ IH]; [done|].
  simpl. rewrite Hab. cbn [mbind result_bind]. rewrite IH. done.
Qed.

(** X5. The catalog is read off the body alone, whatever the status of the
    answer: when every entry of [data] is an object with an [id], the
    catalog is the list of these ids in the order of the answer, duplicates
    included; a body without [data] gives the empty catalog. *)
Theorem model_ids_of_body (status : Z) (body : list (str * pyval))
    (chunks : list bytes) (raises : bool) :
  let resp := Response status (Ok (PDict body)) chunks raises in
  (forall entries ids,
     assoc (pystr "data") body = Some (PList entries) ->
     Forall2 (fun entry id => exists fields,
                entry = PDict fields /\ assoc (pystr "id") fields = Some id)
             entries ids ->
     model_ids (Ok resp) = ids) /\
  (assoc (pystr "data") body = None -> model_ids (Ok resp) = []).
Proof.
  intros resp. split.
  - intros entries ids Hd Hall. unfold model_ids, resp.
    cbn [mbind result_bind json py_get]. rewrite Hd. cbn [py_iter].
    cbn [mbind result_bind].
    rewrite (rmap_ok _ entries ids); [done|].
    eapply Forall2_impl; [exact Hall|].
    intros entry id (fields & -> & Hid). cbn [py_getitem]. by rewrite Hid.
  - intros Hd. unfold model_ids, resp.
    cbn [mbind result_bind json py_get]. by rewrite Hd.
Qed.

(** ** What the summarizer calls *)

(** X6. In every run, [summarize_pdf_with_cerebras] makes at most two
    calls, both requests to the endpoint: it never reads or writes a
    file. *)
Theorem summarize_only_requests
    {W : Type} (handle : forall c : call, W -> answer c * W) (w : W)
    (pdf_text : str) (max_words : Z) :
  let t := snd (fst (run handle (summarize_pdf_with_cerebras pdf_text max_words) w)) in
  (length t <= 2)%nat /\
  Forall (fun e => is_request (io_call e) = true /\ touches_files e = false) t.
Proof.
  destruct (too_short pdf_text) eqn:Hs.
  { unfold summarize_pdf_with_cerebras. rewrite Hs. cbn. split; [lia|constructor]. }
  rewrite run_summarize by done.
  destruct (handle (models_call (new_CerebrasLLM summary_system_prompt)) w)
    as [a1 w1] eqn:H1.
  rewrite (run_get_response handle _ _ w w1 a1 H1). cbv zeta.
  destruct (model_ids a1) as [|m0 rest].
  - cbn [fst snd length]. split; [lia|]. by repeat constructor.
  - destruct (handle _ w1) as [a2 w2].
    destruct (completion_reply _ a2) as [llm summary].
    cbn [fst snd length]. split; [lia|]. by repeat constructor.
Qed.

(** ** Word budget and clipping *)

(** X7. Truncating twice is truncating once: for a budget [max_words >= 0]
    the result of the truncator is within the budget and is left unchanged
    by a second pass. *)
Theorem truncate_words_idempotent (summary : str) (max_words : Z) :
  0 <= max_words ->
  truncate_words (truncate_words summary max_words) max_words
  = truncate_words summary max_words.
Proof.
  intros H0. apply truncate_within_budget. by apply truncate_word_count.
Qed.

(** [truncate_words_idempotent] at a budget of 2 words. *)
Lemma truncate_words_idempotent_witness :
  truncate_words (truncate_words (pystr "a  b c d") 2) 2 = pystr "a b".
Proof.
  rewrite (truncate_words_idempotent (pystr "a  b c d") 2) by lia.
  vm_compute. reflexivity.
Defined.

(** X8. The clipped text is a prefix of the document text, of length
    [min(len(text), 8000)], and clipping it again changes nothing. *)
Theorem clip_text_prefix (pdf_text : str) :
  (exists rest, pdf_text = clip_text pdf_text ++ rest) /\
  len (clip_text pdf_text) = Z.min (len pdf_text) 8000 /\
  clip_text (clip_text pdf_text) = clip_text pdf_text.
Proof.
  destruct (Z_le_gt_dec (len pdf_text) 8000) as [H|H].
  - rewrite !clip_text_short by (rewrite ?clip_text_short; done).
    repeat apply conj; [|lia|done].
    exists []. by rewrite app_nil_r.
  - destruct (clip_text_long pdf_text) as [E L]; [lia|].
    repeat apply conj.
    + exists (drop (Z.to_nat 8000) pdf_text). rewrite E.
      by rewrite take_drop.
    + lia.
    + apply clip_text_short. lia.
Qed.

Lemma lstrip_spaces (ws s : str) :
  forallb isspace ws = true -> lstrip (ws ++ s) = lstrip s.
Proof.
  induction ws as [|c ws IH]; [done|]. simpl.
  intros H. apply andb_true_iff in H as [-> H]. by apply IH.
Qed.

Lemma strip_spaces (ws : str) : forallb isspace ws = true -> strip ws = [].
Proof.
  intros H. unfold strip.
  rewrite <- (app_nil_r ws), lstrip_spaces by done. reflexivity.
Qed.

(** X9. The guard of the summarizer looks at the whole text and the prompt
    at its first 8000 characters only: a text that starts with 8000 or more
    whitespace characters followed by a body of at least 50 characters
    after stripping passes the guard, and the document part of its prompt
    is all whitespace. *)
Theorem guard_sees_more_than_prompt (ws body : str) :
  forallb isspace ws = true ->
  8000 <= len ws ->
  50 <= len (strip body) ->
  too_short (ws ++ body) = false /\
  clip_text (ws ++ body) = take (Z.to_nat 8000) ws /\
  strip (clip_text (ws ++ body)) = [].
Proof.
  intros Hws Hlen Hbody.
  assert (Hclip : clip_text (ws ++ body) = take (Z.to_nat 8000) ws).
  { destruct (Z.eq_dec (len (ws ++ body)) 8000) as [E|E].
    - rewrite clip_text_short by lia.
      rewrite len_app in E. pose proof (len_nonneg body).
      assert (Hb : len body = 0) by lia. unfold len in Hb.
      destruct body; [|simpl in Hb; lia].
      rewrite app_nil_r. symmetry. apply take_ge.
      unfold len in *. simpl in *. lia.
    - destruct (clip_text_long (ws ++ body)) as [-> _].
      { rewrite len_app in *. pose proof (len_nonneg body). lia. }
      apply take_app_le. unfold len in Hlen. lia. }
  repeat apply conj; [|done|].
  - unfold too_short, strip. rewrite lstrip_spaces by done.
    fold (strip body). cbn [truthy]. rewrite len_app.
    pose proof (len_nonneg body).
    assert (H1 : (len ws + len body =? 0) = false) by (apply Z.eqb_neq; lia).
    assert (H2 : (len (strip body) <? 50) = false) by (apply Z.ltb_ge; lia).
    by rewrite H1, H2.
  - rewrite Hclip. apply strip_spaces.
    rewrite forallb_forall in *. intros c Hc. apply Hws.
    rewrite <- (take_drop (Z.to_nat 8000) ws). apply in_or_app. by left.
Qed.

(** [guard_sees_more_than_prompt] on 8000 spaces followed by 60 letters. *)
Lemma guard_sees_more_than_prompt_witness :
  too_short (repeat 32%N (Z.to_nat 8000) ++ repeat 97%N 60) = false /\
  strip (clip_text (repeat 32%N (Z.to_nat 8000) ++ repeat 97%N 60)) = [].
Proof.
  destruct (guard_sees_more_than_prompt
              (repeat 32%N (Z.to_nat 8000)) (repeat 97%N 60))
    as (H1 & _ & H2); [vm_compute; reflexivity | vm_compute; discriminate
                      | vm_compute; discriminate |].
  by split.
Defined.

(** ** Extracted text *)

Section Extraction.
Context {W : Type} (handle : forall c : call, W -> answer c * W).

(** A run of [extract_text_with_pdfminer], call by call. *)
Lemma run_extract_text (pdf_path : str) (w : W) :
  run handle (extract_text_with_pdfminer pdf_path) w
  = let '(ex, w1) := handle (path_exists pdf_path) w in
    if negb ex then (FileMissing, [IO (path_exists pdf_path) ex], w1)
    else
      let '(sz, w2) := handle (path_getsize pdf_path) w1 in
      match sz with
      | Raised =>
          (ExtractionRaised,
           [IO (path_exists pdf_path) ex; IO (path_getsize pdf_path) Raised], w2)
      | Ok size =>
          if size =? 0
          then (FileEmpty,
                [IO (path_exists pdf_path) ex;
                 IO (path_getsize pdf_path) (Ok size)], w2)
          else
            let '(t, w3) := handle (pdf_extract_text pdf_path) w2 in
            match t with
            | Raised =>
                (ExtractionRaised,
                 [IO (path_exists pdf_path) ex;
                  IO (path_getsize pdf_path) (Ok size);
                  IO (pdf_extract_text pdf_path) Raised], w3)
            | Ok raw =>
                let text := strip (replace 0%N [] raw) in
                (if len text <? 10 then TextTooShort else Extracted text,
                 [IO (path_exists pdf_path) ex;
                  IO (path_getsize pdf_path) (Ok size);
                  IO (pdf_extract_text pdf_path) (Ok raw)], w3)
            end
      end.
Proof.
  unfold extract_text_with_pdfminer. cbn.
  destruct (handle (path_exists pdf_path) w) as [[|] w1]; cbn; [|done].
  destruct (handle (path_getsize pdf_path) w1) as [[size|] w2]; cbn; [|done].
  destruct (size =? 0); cbn; [done|].
  destruct (handle (pdf_extract_text pdf_path) w2) as [[raw|] w3]; cbn; [|done].
  by destruct (len _ <? 10).
Qed.

(** X10. A text that [extract_text_with_pdfminer] returns has at least 10
    characters, contains no NUL character, and neither starts nor ends with
    whitespace; it is what is left of the extractor's output once NUL
    characters and the surrounding whitespace are removed. *)
Theorem extracted_text_is_clean (pdf_path : str) (w : W) (text : str) :
  fst (fst (run handle (extract_text_with_pdfminer pdf_path) w)) = Extracted text ->
  10 <= len text /\
  ~ In 0%N text /\
  (forall c t, text = c :: t -> isspace c = false) /\
  (forall c t, text = t ++ [c] -> isspace c = false) /\
  exists raw, In (IO (pdf_extract_text pdf_path) (Ok raw))
                 (snd (fst (run handle (extract_text_with_pdfminer pdf_path) w))) /\
              text = strip (List.filter (fun c => negb (c =? 0)%N) raw).
Proof.
  rewrite run_extract_text.
  destruct (handle (path_exists pdf_path) w) as [[|] w1]; cbn [negb]; [|done].
  destruct (handle (path_getsize pdf_path) w1) as [[size|] w2]; [|done].
  destruct (size =? 0); [done|].
  destruct (handle (pdf_extract_text pdf_path) w2) as [[raw|] w3]; [|done].
  cbv zeta. cbn [fst snd].
  destruct (len (strip (replace 0%N [] raw)) <? 10) eqn:Hl; [done|].
  intros [= <-]. apply Z.ltb_ge in Hl. rewrite replace_nul in *.
  repeat apply conj; [done| | | |].
  - intros Hin.
    destruct (strip_split (List.filter (fun c => negb (c =? 0)%N) raw))
      as (l & r & E & _).
    assert (Hf : In 0%N (List.filter (fun c => negb (c =? 0)%N) raw)).
    { rewrite E. apply in_or_app. right. apply in_or_app. by left. }
    apply filter_In in Hf as [_ Hf]. done.
  - apply strip_ends.
  - apply strip_ends.
  - exists raw. split; [|done]. right. right. by left.
Qed.

(** X11. The extractor is called only on a file that exists and whose size
    was read and is not 0: in every run that calls it, the two checks come
    first, in this order, and the call is the last one. *)
Theorem extractor_called_after_checks (pdf_path : str) (w : W) (p : str) a :
  In (IO (pdf_extract_text p) a)
     (snd (fst (run handle (extract_text_with_pdfminer pdf_path) w))) ->
  exists size,
    size <> 0 /\
    snd (fst (run handle (extract_text_with_pdfminer pdf_path) w))
    = [IO (path_exists pdf_path) true;
       IO (path_getsize pdf_path) (Ok size);
       IO (pdf_extract_text p) a].
Proof.
  rewrite run_extract_text.
  destruct (handle (path_exists pdf_path) w) as [[|] w1]; cbn [negb].
  2:{ intros [E|[]]. apply (f_equal io_call) in E. discriminate E. }
  destruct (handle (path_getsize pdf_path) w1) as [[size|] w2].
  2:{ intros [E|[E|[]]]; apply (f_equal io_call) in E; discriminate E. }
  destruct (size =? 0) eqn:Hs.
  { intros [E|[E|[]]]; apply (f_equal io_call) in E; discriminate E. }
  apply Z.eqb_neq in Hs.
  destruct (handle (pdf_extract_text pdf_path) w2) as [[raw|] w3];
    cbv zeta; cbn [fst snd];
    (intros [E|[E|[E|[]]]];
     [apply (f_equal io_call) in E; discriminate E
     |apply (f_equal io_call) in E; discriminate E
     |exists size; split; [done|]; by rewrite E]).
Qed.
End Extraction.

(** [extracted_text_is_clean] on a stored file whose text is padded with
    NUL characters and whitespace. *)
Lemma extracted_text_is_clean_witness :
  fst (fst (run (env_handle (pdf_env (0%N :: pystr "  some document text  ")))
              (extract_text_with_pdfminer (pystr "researchers/a/t.pdf")) tt))
  = Extracted (pystr "some document text") /\
  ~ In 0%N (pystr "some document text").
Proof.
  assert (E : fst (fst (run (env_handle
                              (pdf_env (0%N :: pystr "  some document text  ")))
                         (extract_text_with_pdfminer (pystr "researchers/a/t.pdf"))
                         tt))
              = Extracted (pystr "some document text"))
    by (vm_compute; reflexivity).
  split; [exact E|].
  exact (proj1 (proj2 (extracted_text_is_clean _ _ _ _ E))).
Defined.

(** [extractor_called_after_checks] on a stored file of 1024 bytes. *)
Lemma extractor_called_after_checks_witness :
  exists size,
    size <> 0 /\
    snd (fst (run (env_handle (pdf_env (pystr "some document text")))
                (extract_text_with_pdfminer (pystr "researchers/a/t.pdf")) tt))
    = [IO (path_exists (pystr "researchers/a/t.pdf")) true;
       IO (path_getsize (pystr "researchers/a/t.pdf")) (Ok size);
       IO (pdf_extract_text (pystr "researchers/a/t.pdf"))
          (Ok (pystr "some document text"))].
Proof.
  apply (extractor_called_after_checks
           (env_handle (pdf_env (pystr "some document text")))
           (pystr "researchers/a/t.pdf") tt (pystr "researchers/a/t.pdf")
           (Ok (pystr "some document text"))).
  vm_compute. right. right. left. reflexivity.
Defined.

(** ** Storing the download *)

Section Storing.
Variable stdout_encodes : str -> bool.
Context {W : Type} (handle : forall c : call, W -> answer c * W).

(** The loop over the chunks only writes, and only to the target path. *)
Lemma write_chunks_calls (p : str) (chunks : list bytes) (raises : bool) (w : W) :
  Forall (fun e => exists chunk, io_call e = file_write p chunk /\ chunk <> [])
         (snd (fst (run handle (write_chunks p chunks raises) w))).
Proof.
  revert w. induction chunks as [|chunk rest IH]; intros w; simpl.
  - constructor.
  - destruct (len chunk =? 0) eqn:E; [apply IH|]. cbn.
    destruct (handle (file_write p chunk) w) as [[u|] w1].
    + specialize (IH w1).
      destruct (run handle (write_chunks p rest raises) w1) as [[r t] w2].
      cbn [fst snd] in *. constructor; [|done].
      exists chunk. split; [done|]. intros ->. done.
    + cbn. constructor; [|constructor].
      exists chunk. split; [done|]. intros ->. done.
Qed.

(** A run of [store_pdf], call by call. *)
Lemma run_store_pdf (resp : response) (email title : str) (w : W) :
  run handle (store_pdf stdout_encodes resp email title) w
  = let parent := parent_folder_of email in
    let target := target_path_of email title in
    let '(m, w1) := handle (makedirs parent) w in
    match m with
    | Raised => (DownloadRaised, [IO (makedirs parent) Raised], w1)
    | Ok u =>
        let '(ex, w2) := handle (path_exists target) w1 in
        let '(rm, trm, w3) :=
          if ex : bool
          then if stdout_encodes (deleting_message (title ++ pystr ".pdf"))
               then let '(a, w') := handle (remove target) w2 in
                    (a, [IO (remove target) a], w')
               else (Raised, [], w2)
          else (Ok tt, [], w2) in
        let before := IO (makedirs parent) (Ok u)
                      :: IO (path_exists target) ex :: trm in
        match rm with
        | Raised => (DownloadRaised, before, w3)
        | Ok _ =>
            let '(o, w4) := handle (open_wb target) w3 in
            match o with
            | Raised => (DownloadRaised, before ++ [IO (open_wb target) Raised], w4)
            | Ok u' =>
                let '(wr, tw, w5) :=
                  run handle (write_chunks target (iter_content resp)
                                (iter_raises resp)) w4 in
                let '(c, w6) := handle (file_close target) w5 in
                (match wr, c with
                 | Ok _, Ok _ =>
                     if stdout_encodes (stored_message target)
                     then Stored target else DownloadRaised
                 | _, _ => DownloadRaised
                 end,
                 before ++ IO (open_wb target) (Ok u') :: tw
                        ++ [IO (file_close target) c],
                 w6)
            end
        end
    end.
Proof.
  unfold store_pdf. fold (parent_folder_of email).
  fold (target_path_of email title). cbv zeta.
  cbn [run bind mbind prog_bind perform].
  destruct (handle (makedirs (parent_folder_of email)) w) as [[u|] w1]; [|done].
  cbn [run bind mbind prog_bind perform].
  destruct (handle (path_exists (target_path_of email title)) w1) as [ex w2].
  destruct ex; cbn [run bind mbind prog_bind perform].
  - destruct (stdout_encodes (deleting_message (title ++ pystr ".pdf")));
      [|done]. cbn [run bind mbind prog_bind perform].
    destruct (handle (remove (target_path_of email title)) w2) as [[u1|] w3];
      [|done]. cbn [run bind mbind prog_bind perform].
    destruct (handle (open_wb (target_path_of email title)) w3) as [[u2|] w4];
      [|done].
    change (bind ?f (write_chunks ?a ?b ?c)) with (write_chunks a b c ≫= f).
    rewrite run_bind.
    destruct (run handle (write_chunks _ _ _) w4) as [[wr tw] w5].
    cbn [run bind mbind prog_bind perform].
    destruct (handle (file_close (target_path_of email title)) w5) as [c w6].
    destruct wr, c; cbn; try done.
    by destruct (stdout_encodes (stored_message (target_path_of email title))).
  - destruct (handle (open_wb (target_path_of email title)) w2) as [[u2|] w4];
      [|done].
    change (bind ?f (write_chunks ?a ?b ?c)) with (write_chunks a b c ≫= f).
    rewrite run_bind.
    destruct (run handle (write_chunks _ _ _) w4) as [[wr tw] w5].
    cbn [run bind mbind prog_bind perform].
    destruct (handle (file_close (target_path_of email title)) w5) as [c w6].
    destruct wr, c; cbn; try done.
    by destruct (stdout_encodes (stored_message (target_path_of email title))).
Qed.
End Storing.

Section Downloads.
Variable unquote : str -> str.
Variable netloc_ok : str -> bool.
Variable stdout_encodes : str -> bool.
Context {W : Type} (handle : forall c : call, W -> answer c * W).

(** The trace of a download is the request followed by the trace of the
    storing, when there is one. *)
Lemma download_trace (drive_link email title : str) (w : W) :
  let t := snd (fst (run handle (download_pdf unquote netloc_ok stdout_encodes
                          drive_link email title) w)) in
  t = [] \/
  (exists id a, t = [IO (requests_get (export_url id)) a]) \/
  (exists id resp w1,
     status_code resp = 200 /\
     t = IO (requests_get (export_url id)) (Ok resp)
         :: snd (fst (run handle (store_pdf stdout_encodes resp email title) w1))).
Proof.
  cbv zeta. rewrite run_download_pdf.
  destruct (extract_file_id unquote netloc_ok drive_link) as [[id|]|];
    [|by left|by left].
  destruct (no_id (Some id)); [by left|]. cbv zeta.
  destruct (handle (requests_get (export_url id)) w) as [[resp|] w1].
  - destruct (status_code resp =? 200) eqn:Hs; cbn [negb].
    + right. right. exists id, resp, w1. apply Z.eqb_eq in Hs.
      split; [done|].
      by destruct (run handle (store_pdf stdout_encodes resp email title) w1) as [[r t] w2].
    + right. left. by eexists _, _.
  - right. left. by eexists _, _.
Qed.

(** X12. A download never touches a path of its own choosing: besides the
    request, every call of [download_pdf] is the making of
    [researchers/{email}] or an operation on the target path. *)
Theorem download_stays_on_target (drive_link email title : str) (w : W) :
  Forall (fun e => download_call email title (io_call e))
    (snd (fst (run handle (download_pdf unquote netloc_ok stdout_encodes
                          drive_link email title) w))).
Proof.
  destruct (download_trace drive_link email title w)
    as [-> | [(id & a & ->) | (id & resp & w1 & _ & ->)]].
  - constructor.
  - by repeat constructor.
  - constructor; [done|]. rewrite run_store_pdf. cbv zeta.
    destruct (handle (makedirs (parent_folder_of email)) w1) as [[u|] w2];
      [|by repeat constructor].
    destruct (handle (path_exists (target_path_of email title)) w2) as [ex w3].
    assert (Hw : forall w',
      Forall (fun e => download_call email title (io_call e))
        (snd (fst (run handle (write_chunks (target_path_of email title)
                                 (iter_content resp) (iter_raises resp)) w')))).
    { intros w'. eapply Forall_impl; [apply write_chunks_calls|].
      intros e (chunk & -> & _). done. }
    destruct ex.
    + destruct (stdout_encodes (deleting_message (title ++ pystr ".pdf")));
        [|by repeat constructor].
      destruct (handle (remove (target_path_of email title)) w3) as [[u1|] w4];
        [|by repeat constructor].
      destruct (handle (open_wb (target_path_of email title)) w4) as [[u2|] w5];
        [|by repeat constructor].
      specialize (Hw w5).
      destruct (run handle (write_chunks _ _ _) w5) as [[wr tw] w6].
      destruct (handle (file_close (target_path_of email title)) w6) as [c w7].
      cbn [fst snd app] in *. repeat (constructor; [done|]).
      apply Forall_app. split; [done|]. by repeat constructor.
    + destruct (handle (open_wb (target_path_of email title)) w3) as [[u2|] w5];
        [|by repeat constructor].
      specialize (Hw w5).
      destruct (run handle (write_chunks _ _ _) w5) as [[wr tw] w6].
      destruct (handle (file_close (target_path_of email title)) w6) as [c w7].
      cbn [fst snd app] in *. repeat (constructor; [done|]).
      apply Forall_app. split; [done|]. by repeat constructor.
Qed.

(** X13. A file that was opened is closed: in every run of [download_pdf]
    in which the target is opened for writing, also when a write fails or
    the stream breaks, the last call closes that file. *)
Theorem opened_file_is_closed (drive_link email title : str) (w : W) e p :
  In e (snd (fst (run handle (download_pdf unquote netloc_ok stdout_encodes
                          drive_link email title) w))) ->
  opened_file e = Some p ->
  exists t0 e',
    snd (fst (run handle (download_pdf unquote netloc_ok stdout_encodes
                          drive_link email title) w))
    = t0 ++ [e'] /\
    closed_file e' = Some p.
Proof.
  destruct (download_trace drive_link email title w)
    as [-> | [(id & a & ->) | (id & resp & w1 & _ & ->)]].
  - intros [].
  - intros [<-|[]]. done.
  - rewrite run_store_pdf. cbv zeta.
    destruct (handle (makedirs (parent_folder_of email)) w1) as [[u|] w2].
    2:{ intros [<-|[<-|[]]]; done. }
    destruct (handle (path_exists (target_path_of email title)) w2) as [ex w3].
    assert (Hw : forall w' e,
      In e (snd (fst (run handle (write_chunks (target_path_of email title)
                                    (iter_content resp) (iter_raises resp)) w'))) ->
      opened_file e = None).
    { intros w' e0 Hin. pose proof (write_chunks_calls handle
        (target_path_of email title) (iter_content resp) (iter_raises resp) w') as Hf.
      rewrite List.Forall_forall in Hf. destruct (Hf e0 Hin) as (chunk & Hc & _).
      destruct e0 as [c a]. simpl in Hc. subst c. done. }
    destruct ex.
    + destruct (stdout_encodes (deleting_message (title ++ pystr ".pdf"))).
      2:{ intros [<-|[<-|[<-|[]]]]; done. }
      destruct (handle (remove (target_path_of email title)) w3) as [[u1|] w4].
      2:{ intros [<-|[<-|[<-|[<-|[]]]]]; done. }
      destruct (handle (open_wb (target_path_of email title)) w4) as [[u2|] w5].
      2:{ intros [<-|[<-|[<-|[<-|[<-|[]]]]]]; done. }
      specialize (Hw w5).
      destruct (run handle (write_chunks _ _ _) w5) as [[wr tw] w6].
      destruct (handle (file_close (target_path_of email title)) w6) as [c w7].
      cbn [fst snd app] in *.
      intros [<-|[<-|[<-|[<-|[<-|Hin]]]]] Ho; try done.
      * injection Ho as <-. eexists (_ :: _ :: _ :: _ :: _ :: tw), _.
        split; [reflexivity|done].
      * apply in_app_or in Hin as [Hin|[<-|[]]]; [|done].
        rewrite (Hw _ Hin) in Ho. done.
    + destruct (handle (open_wb (target_path_of email title)) w3) as [[u2|] w5].
      2:{ intros [<-|[<-|[<-|[<-|[]]]]]; done. }
      specialize (Hw w5).
      destruct (run handle (write_chunks _ _ _) w5) as [[wr tw] w6].
      destruct (handle (file_close (target_path_of email title)) w6) as [c w7].
      cbn [fst snd app] in *.
      intros [<-|[<-|[<-|[<-|Hin]]]] Ho; try done.
      * injection Ho as <-. eexists (_ :: _ :: _ :: _ :: tw), _.
        split; [reflexivity|done].
      * apply in_app_or in Hin as [Hin|[<-|[]]]; [|done].
        rewrite (Hw _ Hin) in Ho. done.
Qed.
End Downloads.

(** [opened_file_is_closed] on a download over a stored file. *)
Lemma opened_file_is_closed_witness :
  exists t0 e',
    snd (fst (run (env_handle
                     (download_env
                        (Ok (Response 200 Raised [[Byte.x25; Byte.x50]] true))
                        true))
                (download_pdf unquote_ascii netloc_plain utf8_stdout
                   (pystr "https://drive.example.com/open?id=ABC123")
                   (pystr "a@b.c") (pystr "paper")) tt))
    = t0 ++ [e'] /\
    closed_file e' = Some (pystr "researchers/a@b.c/paper.pdf").
Proof.
  apply (opened_file_is_closed unquote_ascii netloc_plain utf8_stdout
           (env_handle
              (download_env
                 (Ok (Response 200 Raised [[Byte.x25; Byte.x50]] true)) true))
           (pystr "https://drive.example.com/open?id=ABC123")
           (pystr "a@b.c") (pystr "paper") tt
           (IO (open_wb (pystr "researchers/a@b.c/paper.pdf")) (Ok tt))).
  - vm_compute. do 4 right. left. reflexivity.
  - reflexivity.
Defined.

(** ** The stored file *)



Section StoredFile.
Variable unquote : str -> str.
Variable netloc_ok : str -> bool.
Variable stdout_encodes : str -> bool.
Context {W : Type} (handle : forall c : call, W -> answer c * W).
Hypothesis writes_ok : writes_succeed handle.



End StoredFile.


(** ** The callers *)

(** X15. For an owner whose address does not start with [/], the folder
    that [create_user_folder] makes is the one [download_pdf] stores into,
    and the path that [get_ai_summary] reads is the path that
    [download_pdf] wrote.  An address that starts with [/] is taken by
    [os.path.join] as the whole path: the folder is then made outside
    [researchers]. *)
Theorem caller_paths_agree
    {W : Type} (handle : forall c : call, W -> answer c * W) (w : W)
    (email title : str) :
  (startswith (pystr "/") email = false ->
     calls (snd (fst (run handle (create_user_folder email) w)))
     = [makedirs (parent_folder_of email)] /\
     pdf_path_of email title = target_path_of email title /\
     exists t, calls (snd (fst (run handle (get_ai_summary_of_post email title) w)))
               = path_exists (target_path_of email title) :: t) /\
  (startswith (pystr "/") email = true ->
     calls (snd (fst (run handle (create_user_folder email) w)))
     = [makedirs email]).
Proof.
  split; intros Hs.
  - assert (E : path_join (pystr "researchers") email = parent_folder_of email).
    { change (pystr "/") with [47%N] in Hs.
      unfold path_join, parent_folder_of. rewrite Hs.
      assert (Hr : (len (pystr "researchers") =? 0)
                   || startswith [47%N] (rev (pystr "researchers")) = false)
        by (vm_compute; reflexivity).
      rewrite Hr.
      change (pystr "researchers/") with (pystr "researchers" ++ [47%N]).
      by rewrite <- app_assoc. }
    assert (E2 : pdf_path_of email title = target_path_of email title).
    { unfold pdf_path_of, target_path_of. by rewrite E. }
    repeat apply conj.
    + unfold create_user_folder. cbv zeta. rewrite E. cbn.
      by destruct (handle (makedirs (parent_folder_of email)) w).
    + done.
    + unfold get_ai_summary_of_post. cbv zeta. fold (pdf_path_of email title).
      rewrite E2. cbn [run bind mbind prog_bind perform].
      destruct (handle (path_exists (target_path_of email title)) w) as [ex w1].
      destruct (run handle _ w1) as [[r t] w2]. by exists (calls t).
  - change (pystr "/") with [47%N] in Hs.
    unfold create_user_folder, path_join. cbv zeta. rewrite Hs. cbn.
    by destruct (handle (makedirs email) w).
Qed.

Lemma lstrip_clean (s : str) :
  (forall c t, s = c :: t -> isspace c = false) -> lstrip s = s.
Proof.
  intros H. destruct s as [|c t]; [done|]. simpl. by rewrite (H c t).
Qed.

(** Stripping a stripped text changes nothing. *)
Lemma strip_idempotent (s : str) : strip (strip s) = strip s.
Proof.
  destruct (strip_ends s) as [Hhead Hlast].
  unfold strip at 1. rewrite lstrip_clean by done.
  unfold rstrip. rewrite lstrip_clean.
  - apply rev_involutive.
  - intros c t E. apply (Hlast c (rev t)).
    rewrite <- (rev_involutive (strip s)), E. reflexivity.
Qed.

Section Pipeline.
Context {W : Type} (handle : forall c : call, W -> answer c * W).

(** X16. A summary that [summarize_pdf_with_cerebras] returns is the
    truncation of the model's reply, a string that is not empty: for a
    budget [max_words >= 0] it has at most [max_words] words. *)
Theorem returned_summary_within_budget (pdf_text : str) (max_words : Z)
    (w : W) (summary : str) :
  fst (fst (run handle (summarize_pdf_with_cerebras pdf_text max_words) w))
  = Ok (Some summary) ->
  (exists reply_text, reply_text <> [] /\
     summary = truncate_words reply_text max_words) /\
  (0 <= max_words -> len (split summary) <= max_words).
Proof.
  intros H.
  assert (E : exists reply_text, reply_text <> [] /\
                summary = truncate_words reply_text max_words).
  { destruct (too_short pdf_text) eqn:Hs.
    { unfold summarize_pdf_with_cerebras in H. rewrite Hs in H. done. }
    rewrite run_summarize in H by done.
    destruct (run handle _ w) as [[[llm r] t] w']. cbn [fst] in H.
    unfold returned_summary in H. destruct r as [| | |v]; try done.
    cbn [reply_value] in H. destruct (truthy v) eqn:Ht; [|done].
    destruct v as [| | | |s|l|d]; try done.
    injection H as <-. exists s. split; [|done]. intros ->. done. }
  split; [done|]. destruct E as (r & _ & ->). by apply truncate_word_count.
Qed.

(** The steps of the route after the file was found. *)
Lemma run_get_ai_summary_of_post (email title : str) (w w1 : W) :
  handle (path_exists (pdf_path_of email title)) w = (true, w1) ->
  fst (fst (run handle (get_ai_summary_of_post email title) w))
  = match fst (fst (run handle (extract_text_with_pdfminer
                                  (pdf_path_of email title)) w1)) with
    | Extracted pdf_text =>
        if negb (truthy (PStr pdf_text)) then TextNotExtracted
        else
          match fst (fst (run handle (summarize_pdf_with_cerebras pdf_text 150)
                            (snd (run handle (extract_text_with_pdfminer
                                                (pdf_path_of email title)) w1)))) with
          | Raised => SummaryRaised
          | Ok None => SummaryNotGenerated
          | Ok (Some summary) =>
              if truthy (PStr summary) then SummaryGenerated summary title
              else SummaryNotGenerated
          end
    | _ => TextNotExtracted
    end.
Proof.
  intros H1. unfold get_ai_summary_of_post. cbv zeta.
  fold (pdf_path_of email title).
  cbn [run bind mbind prog_bind perform]. rewrite H1. cbn [negb].
  change (bind ?f (extract_text_with_pdfminer ?p))
    with (extract_text_with_pdfminer p ≫= f).
  rewrite run_bind.
  destruct (run handle (extract_text_with_pdfminer _) w1) as [[e t] w2].
  cbn [fst snd]. destruct e; cbn [extraction_value]; try done.
  destruct (negb (truthy (PStr text))); [done|].
  rewrite run_bind.
  destruct (run handle (summarize_pdf_with_cerebras text 150) w2) as [[s t2] w3].
  cbn [fst]. destruct s as [[summary|]|]; try done.
  by destruct (truthy (PStr summary)).
Qed.

(** X17. The route answers 200 only with a summary that is not empty and
    has at most 150 words, under the title of the post. *)
Theorem get_ai_summary_success (email title : str) (w : W) (summary title' : str) :
  fst (fst (run handle (get_ai_summary_of_post email title) w))
  = SummaryGenerated summary title' ->
  title' = title /\ summary <> [] /\ len (split summary) <= 150.
Proof.
  destruct (handle (path_exists (pdf_path_of email title)) w) as [ex w1] eqn:H1.
  destruct ex.
  2:{ unfold get_ai_summary_of_post. cbv zeta. fold (pdf_path_of email title).
      cbn [run bind mbind prog_bind perform]. rewrite H1. done. }
  rewrite (run_get_ai_summary_of_post email title w w1 H1).
  destruct (fst (fst (run handle (extract_text_with_pdfminer _) w1)));
    try done.
  destruct (negb (truthy (PStr text))); [done|].
  destruct (fst (fst (run handle (summarize_pdf_with_cerebras text 150) _)))
    as [[s|]|] eqn:Hsum; try done.
  destruct (truthy (PStr s)) eqn:Ht; [|done].
  intros [= <- <-]. repeat apply conj; [done| |].
  - intros ->. done.
  - destruct (returned_summary_within_budget _ _ _ _ Hsum) as [_ Hb].
    apply Hb. lia.
Qed.

(** X18. A stored document whose text has 10 to 49 characters is extracted
    and then refused by the summarizer: the route answers 500 "Failed to
    generate AI summary" after the four file-system calls, without any
    request to the endpoint. *)
Theorem short_document_is_not_summarized (email title : str)
    (w w1 w2 w3 w4 : W) (size : Z) (raw : str) :
  let pdf_path := pdf_path_of email title in
  let text := strip (List.filter (fun c => negb (c =? 0)%N) raw) in
  handle (path_exists pdf_path) w = (true, w1) ->
  handle (path_exists pdf_path) w1 = (true, w2) ->
  handle (path_getsize pdf_path) w2 = (Ok size, w3) ->
  size <> 0 ->
  handle (pdf_extract_text pdf_path) w3 = (Ok raw, w4) ->
  10 <= len text < 50 ->
  run handle (get_ai_summary_of_post email title) w
  = (SummaryNotGenerated,
     [IO (path_exists pdf_path) true; IO (path_exists pdf_path) true;
      IO (path_getsize pdf_path) (Ok size);
      IO (pdf_extract_text pdf_path) (Ok raw)],
     w4) /\
  response_status SummaryNotGenerated = 500.
Proof.
  intros pdf_path text H1 H2 H3 Hs H4 Hlen. split; [|done].
  unfold get_ai_summary_of_post. cbv zeta. fold (pdf_path_of email title).
  fold pdf_path. cbn [run bind mbind prog_bind perform]. rewrite H1. cbn [negb].
  change (bind ?f (extract_text_with_pdfminer ?p))
    with (extract_text_with_pdfminer p ≫= f).
  rewrite run_bind, run_extract_text, H2. cbn [negb]. rewrite H3.
  apply Z.eqb_neq in Hs as ->. rewrite H4. cbv zeta.
  rewrite replace_nul. fold text.
  assert (Hl : (len text <? 10) = false) by (apply Z.ltb_ge; lia).
  rewrite Hl. cbn [extraction_value truthy].
  assert (Hne : negb (negb (len text =? 0)) = false).
  { rewrite negb_involutive. apply Z.eqb_neq. lia. }
  rewrite Hne.
  destruct (short_text_not_summarized text 150) as [E _].
  { unfold text. rewrite strip_idempotent. fold text. lia. }
  rewrite E. reflexivity.
Qed.
End Pipeline.

(** [short_document_is_not_summarized] on a stored document whose text is
    [a short note]. *)
Lemma short_document_is_not_summarized_witness :
  fst (fst (run (env_handle (pdf_env (pystr " a short note ")))
              (get_ai_summary_of_post (pystr "a@b.c") (pystr "paper")) tt))
  = SummaryNotGenerated.
Proof.
  assert (Hsize : 1024 <> 0) by lia.
  assert (Hlen : 10 <= len (strip (List.filter (fun c => negb (c =? 0)%N)
                                     (pystr " a short note "))) < 50)
    by (vm_compute; split; [discriminate | reflexivity]).
  destruct (short_document_is_not_summarized
              (env_handle (pdf_env (pystr " a short note ")))
              (pystr "a@b.c") (pystr "paper") tt tt tt tt tt 1024
              (pystr " a short note ")
              eq_refl eq_refl eq_refl Hsize eq_refl Hlen) as [E _].
  rewrite E. reflexivity.
Defined.

(** [returned_summary_within_budget] on the summary that the serving
    endpoint gives of the sample text. *)
Lemma returned_summary_within_budget_witness :
  len (split (pystr "a summary")) <= 150.
Proof.
  assert (Hrun : fst (fst (run (env_handle serving_env)
                             (summarize_pdf_with_cerebras sample_text 150) tt))
                 = Ok (Some (pystr "a summary")))
    by (vm_compute; reflexivity).
  assert (Hbudget : 0 <= 150) by lia.
  exact (proj2 (returned_summary_within_budget (env_handle serving_env)
                  sample_text 150 tt (pystr "a summary") Hrun) Hbudget).
Defined.

(** [get_ai_summary_success] on a stored document with the sample text. *)
Lemma get_ai_summary_success_witness :
  pystr "paper" = pystr "paper" /\ pystr "a summary" <> [] /\
  len (split (pystr "a summary")) <= 150.
Proof.
  assert (Hrun : fst (fst (run (env_handle (library_env sample_text))
                             (get_ai_summary_of_post (pystr "a@b.c") (pystr "paper"))
                             tt))
                 = SummaryGenerated (pystr "a summary") (pystr "paper"))
    by (vm_compute; reflexivity).
  exact (get_ai_summary_success (env_handle (library_env sample_text))
           (pystr "a@b.c") (pystr "paper") tt (pystr "a summary") (pystr "paper")
           Hrun).
Defined.

(** ** The announcement of the deletion *)

Section KeptFile.
Variable unquote : str -> str.
Variable netloc_ok : str -> bool.
Variable stdout_encodes : str -> bool.
Context {W : Type} (handle : forall c : call, W -> answer c * W).

(** X19. The old file outlives a download whose announcement cannot be
    printed: when a file is found at the target path and the standard output
    cannot encode "File '{title}.pdf' already exists. Deleting the old
    file.", [download_pdf] goes to its [except] branch after the request,
    the making of the folder and the existence check; nothing is removed,
    opened or written, and the file store is what it was. *)
Theorem old_file_kept_when_print_fails (drive_link email title : str)
    (w w1 w2 w3 : W) (id : str) (resp : response) :
  extract_file_id unquote netloc_ok drive_link = Ok (Some id) ->
  id <> [] ->
  handle (requests_get (export_url id)) w = (Ok resp, w1) ->
  status_code resp = 200 ->
  handle (makedirs (parent_folder_of email)) w1 = (Ok tt, w2) ->
  handle (path_exists (target_path_of email title)) w2 = (true, w3) ->
  stdout_encodes (deleting_message (title ++ pystr ".pdf")) = false ->
  run handle (download_pdf unquote netloc_ok stdout_encodes
                drive_link email title) w
  = (DownloadRaised,
     [IO (requests_get (export_url id)) (Ok resp);
      IO (makedirs (parent_folder_of email)) (Ok tt);
      IO (path_exists (target_path_of email title)) true],
     w3) /\
  forall fs : gmap str bytes,
    fs_after (snd (fst (run handle (download_pdf unquote netloc_ok stdout_encodes
                                      drive_link email title) w))) fs
    = fs.
Proof.
  intros Hid Hne Hget Hs Hm Hex Hprint.
  assert (E : run handle (download_pdf unquote netloc_ok stdout_encodes
                            drive_link email title) w
              = (DownloadRaised,
                 [IO (requests_get (export_url id)) (Ok resp);
                  IO (makedirs (parent_folder_of email)) (Ok tt);
                  IO (path_exists (target_path_of email title)) true],
                 w3)).
  { rewrite run_download_pdf, Hid.
    destruct id as [|c0 id]; [done|]. cbn [no_id truthy]. rewrite len_cons.
    assert (Hl : negb (negb (len id + 1 =? 0)) = false).
    { rewrite negb_involutive. apply Z.eqb_neq.
      pose proof (len_nonneg id). lia. }
    rewrite Hl. cbv zeta. rewrite Hget, Hs. cbn [Z.eqb Pos.eqb negb].
    rewrite run_store_pdf. cbv zeta. by rewrite Hm, Hex, Hprint. }
  rewrite E. split; [done|]. intros fs. reflexivity.
Qed.
End KeptFile.

(** [old_file_kept_when_print_fails] on the title [résumé], a stored file
    and a standard output encoded as ASCII. *)
Lemma old_file_kept_when_print_fails_witness :
  fst (fst (run (env_handle
                   (download_env
                      (Ok (Response 200 Raised [[Byte.x25; Byte.x50]] false))
                      true))
              (download_pdf unquote_ascii netloc_plain ascii_stdout
                 (pystr "https://drive.example.com/open?id=ABC123")
                 (pystr "a@b.c") accented_title) tt))
  = DownloadRaised.
Proof.
  assert (Hid : pystr "ABC123" <> []) by discriminate.
  destruct (old_file_kept_when_print_fails unquote_ascii netloc_plain
              ascii_stdout
              (env_handle
                 (download_env
                    (Ok (Response 200 Raised [[Byte.x25; Byte.x50]] false))
                    true))
              (pystr "https://drive.example.com/open?id=ABC123")
              (pystr "a@b.c") accented_title tt tt tt tt (pystr "ABC123")
              (Response 200 Raised [[Byte.x25; Byte.x50]] false))
    as [E _]; [vm_compute; reflexivity | exact Hid | reflexivity | reflexivity
              | reflexivity | reflexivity | vm_compute; reflexivity |].
  rewrite E. reflexivity.
Defined.
